(** * Reflyx: chunker, embedding cache, vector store, provider selection
      and streaming sessions

    A shallow embedding of the parts of the Reflyx code-indexing service
    that its design document makes claims about, and the properties
    proved of them.

    - [PyStr]        the Python [str] operations the sources use
    - [Parser]       indexer/parsers/tree_sitter_parser.py and
                     indexer/parsers/language_configs.py
    - [TreeSitter]   the syntax-tree side of tree_sitter_parser.py
    - [Embeddings]   indexer/embeddings/sentence_transformer.py
    - [VectorStore]  indexer/vector_store/qdrant_client.py
    - [LLM]          server/app/services/llm_service.py
    - [WebSocket]    server/app/services/websocket_manager.py

    Conventions.  A Python [str] is a Rocq [string]; a character is an
    [ascii], read as the code point of the same number (0..255).  Python
    [int]s are [Z], lengths and indices are [nat], Python [float]s are
    idealised as exact rationals [Q].  A function that can raise returns
    an [outcome]. *)

From Stdlib Require Import ZArith QArith Qminmax List String Ascii Bool Lia.
From Stdlib Require Import DecimalString Permutation.
From stdpp Require Import base option gmap strings.

Import ListNotations.
Local Open Scope string_scope.
Local Open Scope list_scope.
Local Open Scope Z_scope.

(** ** Exceptions *)

Record exception := Exception { exc_type : string; exc_msg : string }.

Inductive outcome (A : Type) : Type :=
| Return (a : A)
| Raise (e : exception).
Arguments Return {A} a.
Arguments Raise {A} e.

(** The call raises. *)
Definition raises {A : Type} (o : outcome A) : Prop := exists e, o = Raise e.

Definition RuntimeError (msg : string) : exception := Exception "RuntimeError" msg.
Definition ValueError (msg : string) : exception := Exception "ValueError" msg.

(** ** Python string operations *)

Module PyStr.

Definition newline : ascii := ascii_of_nat 10.
Definition nl : string := String newline EmptyString.

(** [len(s)] *)
Definition len (s : string) : nat := String.length s.

(** [s.split(sep)] for a one-character separator. *)
Fixpoint split (sep : ascii) (s : string) : list string :=
  match s with
  | EmptyString => [EmptyString]
  | String c rest =>
      if Ascii.eqb c sep then EmptyString :: split sep rest
      else match split sep rest with
           | [] => [String c EmptyString]
           | w :: ws => String c w :: ws
           end
  end.

(** [sep.join(l)] *)
Fixpoint join (sep : string) (l : list string) : string :=
  match l with
  | [] => EmptyString
  | x :: rest =>
      match rest with
      | [] => x
      | _ :: _ => x ++ sep ++ join sep rest
      end
  end.

(** [c.isspace()] on code points below 256: the ASCII controls 9..13
    and 28..31, the space, NEL (133) and the no-break space (160). *)
Definition isspace (c : ascii) : bool :=
  let n := nat_of_ascii c in
  ((9 <=? n) && (n <=? 13) || (28 <=? n) && (n <=? 32)
   || (n =? 133) || (n =? 160))%nat.

Fixpoint lstrip (s : string) : string :=
  match s with
  | EmptyString => EmptyString
  | String c rest => if isspace c then lstrip rest else s
  end.

Fixpoint rstrip (s : string) : string :=
  match s with
  | EmptyString => EmptyString
  | String c rest =>
      match rstrip rest with
      | EmptyString => if isspace c then EmptyString else String c EmptyString
      | r => String c r
      end
  end.

(** [s.strip()] *)
Definition strip (s : string) : string := rstrip (lstrip s).

(** [c.lower()] on code points below 256: A..Z and the Latin-1 capitals
    192..222 except the multiplication sign 215 move up by 32. *)
Definition lower_char (c : ascii) : ascii :=
  let n := nat_of_ascii c in
  if ((65 <=? n) && (n <=? 90)
      || (192 <=? n) && (n <=? 222) && negb (n =? 215))%nat
  then ascii_of_nat (n + 32) else c.

(** [c.upper()] restricted to the ASCII letters a..z. *)
Definition upper_char (c : ascii) : ascii :=
  let n := nat_of_ascii c in
  if ((97 <=? n) && (n <=? 122))%nat then ascii_of_nat (n - 32) else c.

Fixpoint map_chars (f : ascii -> ascii) (s : string) : string :=
  match s with
  | EmptyString => EmptyString
  | String c rest => String (f c) (map_chars f rest)
  end.

(** [s.lower()] *)
Definition lower (s : string) : string := map_chars lower_char s.
Definition upper (s : string) : string := map_chars upper_char s.

(** [needle in hay] *)
Fixpoint contains (needle hay : string) : bool :=
  String.prefix needle hay
  || match hay with
     | EmptyString => false
     | String _ rest => contains needle rest
     end.

(** [c in s] for a character. *)
Fixpoint has_char (c : ascii) (s : string) : bool :=
  match s with
  | EmptyString => false
  | String a rest => Ascii.eqb a c || has_char c rest
  end.

(** [s.rfind(c)], [None] standing for -1. *)
Fixpoint rfind (c : ascii) (s : string) : option nat :=
  match s with
  | EmptyString => None
  | String a rest =>
      match rfind c rest with
      | Some i => Some (S i)
      | None => if Ascii.eqb a c then Some 0%nat else None
      end
  end.

(** [s[i:]] *)
Fixpoint drop (i : nat) (s : string) : string :=
  match i, s with
  | O, _ => s
  | S i', EmptyString => EmptyString
  | S i', String _ rest => drop i' rest
  end.

(** [str(n)] for a natural number. *)
Definition of_nat (n : nat) : string := NilEmpty.string_of_uint (Nat.to_uint n).

(** Truth value of an [Optional[str]]: [None] and [""] are false. *)
Definition truthy (o : option string) : bool :=
  match o with
  | Some s => negb (String.eqb s EmptyString)
  | None => false
  end.

End PyStr.

(** ** The chunker: tree_sitter_parser.py and language_configs.py *)

Module ChunkType.
Inductive t :=
| FUNCTION | METHOD | CLASS | INTERFACE | STRUCT | ENUM
| VARIABLE | IMPORT | COMMENT | DOCSTRING.

Definition value (k : t) : string :=
  match k with
  | FUNCTION => "function" | METHOD => "method" | CLASS => "class"
  | INTERFACE => "interface" | STRUCT => "struct" | ENUM => "enum"
  | VARIABLE => "variable" | IMPORT => "import" | COMMENT => "comment"
  | DOCSTRING => "docstring"
  end.
End ChunkType.

Module CodeChunk.
Record t := Build {
  id : string;
  content : string;
  chunk_type : ChunkType.t;
  language : string;
  file_path : string;
  line_start : Z;
  line_end : Z;
  function_name : option string;
  class_name : option string;
  module_name : option string;
  docstring : option string;
  complexity_score : Q;
  dependencies : list string;
  context : option string
}.
End CodeChunk.

Module Parser.

(** *** language_configs.py: the extension table of [LANGUAGE_CONFIGS],
    in the dictionary's order. *)
Definition LANGUAGE_CONFIGS : list (string * list string) :=
  [ ("python", [".py"; ".pyw"; ".pyi"]);
    ("javascript", [".js"; ".jsx"; ".mjs"; ".cjs"]);
    ("typescript", [".ts"; ".tsx"; ".d.ts"]);
    ("java", [".java"]);
    ("cpp", [".cpp"; ".cc"; ".cxx"; ".c++"; ".c"; ".h"; ".hpp"; ".hxx"; ".h++"]);
    ("rust", [".rs"]);
    ("go", [".go"]);
    ("php", [".php"; ".phtml"; ".php3"; ".php4"; ".php5"; ".phps"]);
    ("ruby", [".rb"; ".rbw"; ".rake"; ".gemspec"]);
    ("csharp", [".cs"]) ].

(** [x in l] for a list of strings. *)
Definition mem (x : string) (l : list string) : bool :=
  existsb (String.eqb x) l.

(** *** pathlib: [Path(p).name] and [Path(p).suffix] for POSIX paths.
    The path is cut at ["/"]; empty and ["."] components are dropped;
    the name is the last component left. *)
Definition is_component (c : string) : bool :=
  negb (String.eqb c "") && negb (String.eqb c ".").

Definition path_name (file_path : string) : string :=
  List.last (List.filter is_component (PyStr.split "/" file_path)) "".

Definition name_suffix (name : string) : string :=
  match PyStr.rfind "." name with
  | Some i =>
      if ((0 <? i) && (i <? PyStr.len name - 1))%nat
      then PyStr.drop i name else ""
  | None => ""
  end.

Definition path_suffix (file_path : string) : string :=
  name_suffix (path_name file_path).

(** The loop of [_detect_language] over the table. *)
Fixpoint lookup_extension (extension : string)
    (configs : list (string * list string)) : option string :=
  match configs with
  | [] => None
  | (lang_name, extensions) :: rest =>
      if mem extension extensions then Some lang_name
      else lookup_extension extension rest
  end.

Definition _detect_language (file_path : string) : option string :=
  let extension := PyStr.lower (path_suffix file_path) in
  lookup_extension extension LANGUAGE_CONFIGS.

(** *** [parse_file].  Reading the file and the two parsing back ends
    are the environment's: [read_file] gives the text or [None] when
    [open] raises, [tree_sitter] and [fallback] give the chunks of
    [_parse_with_tree_sitter] and [_parse_with_fallback] or [None] when
    they raise; [has_parser] is [language in self.parsers]. *)
Section ParseFile.
Variable read_file : string -> option string.
Variable has_parser : string -> bool.
Variable tree_sitter fallback :
  string -> string -> string -> Z -> option (list CodeChunk.t).

Definition parse_file (file_path : string) (max_chunk_size : Z)
  : list CodeChunk.t :=
  match _detect_language file_path with
  | None => []
  | Some language =>
      match read_file file_path with
      | None => []
      | Some content =>
          if String.eqb (PyStr.strip content) "" then []
          else
            let parsed :=
              if has_parser language
              then tree_sitter file_path content language max_chunk_size
              else fallback file_path content language max_chunk_size in
            match parsed with
            | Some chunks => chunks
            | None => []
            end
      end
  end.
End ParseFile.

(** *** [_calculate_complexity] *)
Definition complexity_keywords : list string :=
  [ "if"; "else"; "elif"; "for"; "while"; "try"; "catch"; "except";
    "switch"; "case"; "break"; "continue"; "return"; "yield" ].

(** The inner [for keyword in complexity_keywords] loop. *)
Definition score_line (score : Q) (line : string) : Q :=
  let line := PyStr.lower (PyStr.strip line) in
  fold_left
    (fun (score : Q) (keyword : string) =>
       if PyStr.contains keyword line then (score + (1 # 2))%Q else score)
    complexity_keywords score.

Definition _calculate_complexity (content : string) : Q :=
  let score := 1%Q in
  let lines := PyStr.split PyStr.newline content in
  let score := fold_left score_line lines score in
  Qmin (score / inject_Z (Z.of_nat (Nat.max (length lines) 1))) 10.

(** *** [_split_chunk]: the state of the loop over the lines. *)
Record split_state := SplitState {
  sub_chunks : list CodeChunk.t;
  current_content : list string;
  current_size : Z;
  start_line : Z
}.

(** The [CodeChunk(...)] built at both places of [_split_chunk];
    [n_lines] is [len(lines)]. *)
Definition make_sub_chunk (chunk : CodeChunk.t) (n_lines : nat)
    (st : split_state) : CodeChunk.t :=
  CodeChunk.Build
    (CodeChunk.id chunk ++ "_part_" ++ PyStr.of_nat (length (sub_chunks st)))
    (PyStr.join PyStr.nl (current_content st))
    (CodeChunk.chunk_type chunk)
    (CodeChunk.language chunk)
    (CodeChunk.file_path chunk)
    (start_line st)
    (start_line st + Z.of_nat (length (current_content st)) - 1)
    (CodeChunk.function_name chunk)
    (CodeChunk.class_name chunk)
    (CodeChunk.module_name chunk)
    None
    (CodeChunk.complexity_score chunk
     * (inject_Z (Z.of_nat (length (current_content st)))
        / inject_Z (Z.of_nat n_lines)))%Q
    []
    None.

(** One iteration of [for i, line in enumerate(lines)]. *)
Definition split_step (chunk : CodeChunk.t) (max_size : Z) (n_lines : nat)
    (i : nat) (line : string) (st : split_state) : split_state :=
  let line_size := Z.of_nat (PyStr.len line) in
  if (current_size st + line_size >? max_size)
     && negb (Nat.eqb (length (current_content st)) 0)
  then
    SplitState (sub_chunks st ++ [make_sub_chunk chunk n_lines st])
               [line] line_size (CodeChunk.line_start chunk + Z.of_nat i)
  else
    SplitState (sub_chunks st) (current_content st ++ [line])
               (current_size st + line_size) (start_line st).

Fixpoint split_loop (chunk : CodeChunk.t) (max_size : Z) (n_lines : nat)
    (i : nat) (lines : list string) (st : split_state) : split_state :=
  match lines with
  | [] => st
  | line :: rest =>
      split_loop chunk max_size n_lines (S i) rest
                 (split_step chunk max_size n_lines i line st)
  end.

Definition _split_chunk (chunk : CodeChunk.t) (max_size : Z)
  : list CodeChunk.t :=
  let lines := PyStr.split PyStr.newline (CodeChunk.content chunk) in
  let st0 := SplitState [] [] 0 (CodeChunk.line_start chunk) in
  let st := split_loop chunk max_size (length lines) 0 lines st0 in
  if negb (Nat.eqb (length (current_content st)) 0)
  then sub_chunks st ++ [make_sub_chunk chunk (length lines) st]
  else sub_chunks st.

(** *** [_split_large_chunks] *)
Fixpoint _split_large_chunks (chunks : list CodeChunk.t) (max_size : Z)
  : list CodeChunk.t :=
  match chunks with
  | [] => []
  | chunk :: rest =>
      (if Z.of_nat (PyStr.len (CodeChunk.content chunk)) <=? max_size
       then [chunk]
       else _split_chunk chunk max_size)
      ++ _split_large_chunks rest max_size
  end.




End Parser.

(** ** Python list slicing in fixed steps *)

Module PyList.
(** [range(0, stop, step)] *)
Definition range_step (stop step : nat) : list nat :=
  map (fun k => (k * step)%nat) (seq 0 ((stop + step - 1) / step)).

(** [[l[i:i + size] for i in range(0, len(l), size)]] *)
Definition batches {A : Type} (size : nat) (l : list A) : list (list A) :=
  map (fun i => firstn size (skipn i l)) (range_step (length l) size).

(** [l[a:b]] for integers [a] and [b]: a negative index counts from the
    end of the list, and both ends are clamped to the list. *)
Definition slice_index (n : nat) (i : Z) : nat :=
  let i := if i <? 0 then i + Z.of_nat n else i in
  Z.to_nat (Z.min (Z.max i 0) (Z.of_nat n)).

Definition slice {A : Type} (l : list A) (a b : Z) : list A :=
  let lo := slice_index (length l) a in
  let hi := slice_index (length l) b in
  firstn (hi - lo) (skipn lo l).
End PyList.

(** ** Chunks from syntax trees: tree_sitter_parser.py

    A tree-sitter [Node] is kept as its type, the rows of its start and
    end points, its byte range and its children.  The tree itself comes
    from [parser.parse], which belongs to the environment. *)

Module TreeSitter.

Inductive Node :=
| MkNode (type : string) (start_row end_row : nat)
         (start_byte end_byte : nat) (children : list Node).

Definition type (n : Node) : string :=
  match n with MkNode t _ _ _ _ _ => t end.
(** [node.start_point[0]] and [node.end_point[0]] *)
Definition start_row (n : Node) : nat :=
  match n with MkNode _ r _ _ _ _ => r end.
Definition end_row (n : Node) : nat :=
  match n with MkNode _ _ r _ _ _ => r end.
Definition start_byte (n : Node) : nat :=
  match n with MkNode _ _ _ b _ _ => b end.
Definition end_byte (n : Node) : nat :=
  match n with MkNode _ _ _ _ b _ => b end.
Definition children (n : Node) : list Node :=
  match n with MkNode _ _ _ _ _ cs => cs end.

(** [s[a:b]] for indices that are not negative. *)
Definition str_slice (s : string) (a b : nat) : string :=
  String.substring a (b - a) s.

(** ['\n'.join(lines[start_line:end_line + 1])] *)
Definition node_text (node : Node) (content : string) : string :=
  let lines := PyStr.split PyStr.newline content in
  PyStr.join PyStr.nl
    (PyList.slice lines (Z.of_nat (start_row node))
                  (Z.of_nat (end_row node) + 1)).

(** [f"{file_path}:{start_line}:{end_line}:{kind}"] *)
Definition chunk_id (file_path : string) (node : Node) (kind : string)
  : string :=
  (file_path ++ ":" ++ PyStr.of_nat (start_row node) ++ ":"
   ++ PyStr.of_nat (end_row node) ++ ":" ++ kind)%string.

(** [_extract_function_name] and [_extract_class_name]: the text of the
    first child of type [identifier]. *)
Definition _extract_function_name (node : Node) (content : string)
  : option string :=
  match List.find (fun child => String.eqb (type child) "identifier")
                  (children node) with
  | Some child => Some (str_slice content (start_byte child) (end_byte child))
  | None => None
  end.

Definition _extract_class_name (node : Node) (content : string)
  : option string :=
  match List.find (fun child => String.eqb (type child) "identifier")
                  (children node) with
  | Some child => Some (str_slice content (start_byte child) (end_byte child))
  | None => None
  end.

(** [_is_docstring] *)
Definition triple (c : ascii) : string :=
  String c (String c (String c EmptyString)).

Definition _is_docstring (content language : string) : bool :=
  if String.eqb language "python" then
    PyStr.contains (triple (ascii_of_nat 34)) content
    || PyStr.contains (triple (ascii_of_nat 39)) content
  else if Parser.mem language ["javascript"; "typescript"; "java"] then
    String.prefix "/**" (PyStr.strip content)
  else false.

(** The four [_create_..._chunk] functions.  Nothing in their [try]
    blocks can raise on these data, so each always gives a chunk. *)
Definition _create_function_chunk (node : Node)
    (content file_path language : string) : CodeChunk.t :=
  let function_content := node_text node content in
  CodeChunk.Build
    (chunk_id file_path node "function") function_content
    ChunkType.FUNCTION language file_path
    (Z.of_nat (start_row node) + 1) (Z.of_nat (end_row node) + 1)
    (_extract_function_name node content) None None None
    (Parser._calculate_complexity function_content) [] None.

Definition _create_class_chunk (node : Node)
    (content file_path language : string) : CodeChunk.t :=
  let class_content := node_text node content in
  CodeChunk.Build
    (chunk_id file_path node "class") class_content
    ChunkType.CLASS language file_path
    (Z.of_nat (start_row node) + 1) (Z.of_nat (end_row node) + 1)
    None (_extract_class_name node content) None None
    (Parser._calculate_complexity class_content) [] None.

Definition _create_import_chunk (node : Node)
    (content file_path language : string) : CodeChunk.t :=
  let import_content := node_text node content in
  CodeChunk.Build
    (chunk_id file_path node "import") import_content
    ChunkType.IMPORT language file_path
    (Z.of_nat (start_row node) + 1) (Z.of_nat (end_row node) + 1)
    None None None None (1 # 10) [] None.

Definition _create_comment_chunk (node : Node)
    (content file_path language : string) : CodeChunk.t :=
  let comment_content := node_text node content in
  let chunk_type :=
    if _is_docstring comment_content language
    then ChunkType.DOCSTRING else ChunkType.COMMENT in
  CodeChunk.Build
    (chunk_id file_path node "comment") comment_content
    chunk_type language file_path
    (Z.of_nat (start_row node) + 1) (Z.of_nat (end_row node) + 1)
    None None None None (1 # 10) [] None.















(** *** [_parse_with_tree_sitter].  [parse] is
    [self.parsers[language].parse(bytes(content, 'utf-8')).root_node], or
    [None] when it raises; [fallback] is [_parse_with_fallback], [None]
    when it raises. *)
Section ParseWithTreeSitter.
Variable parse : string -> string -> option Node.
Variable fallback : string -> string -> string -> Z -> option (list CodeChunk.t).

End ParseWithTreeSitter.

End TreeSitter.

(** ** The embedding service: sentence_transformer.py *)

Module Embeddings.
Section Service.
(** [np.ndarray] *)
Variable Embedding : Type.
(** [hashlib.md5(text.encode('utf-8')).hexdigest()] *)
Variable md5_hexdigest : string -> string.
(** [self.model.encode(batch_texts, ...)], one call per batch. *)
Variable encode : list string -> list Embedding.

Definition part (label : string) (field : option string) : list string :=
  match field with
  | Some s => if PyStr.truthy field then [(label ++ s)%string] else []
  | None => []
  end.

Definition section_of (heading : string) (field : option string)
  : list string :=
  match field with
  | Some s => if PyStr.truthy field then [heading; s] else []
  | None => []
  end.

Definition _create_embedding_text (chunk : CodeChunk.t) : string :=
  let parts :=
    [("Language: " ++ CodeChunk.language chunk)%string]
    ++ part "Function: " (CodeChunk.function_name chunk)
    ++ part "Class: " (CodeChunk.class_name chunk)
    ++ part "Module: " (CodeChunk.module_name chunk)
    ++ [("Type: " ++ ChunkType.value (CodeChunk.chunk_type chunk))%string]
    ++ ["Code:"; CodeChunk.content chunk]
    ++ section_of "Documentation:" (CodeChunk.docstring chunk)
    ++ section_of "Context:" (CodeChunk.context chunk) in
  PyStr.join PyStr.nl parts.

Definition _get_text_hash (text : string) : string := md5_hexdigest text.

(** The three lists filled by the first loop of [generate_embeddings]. *)
Record scan := Scan {
  texts_to_embed : list string;
  chunk_ids : list (string * string);
  cached_embeddings : list (string * Embedding)
}.

Definition scan_step (cache : gmap string Embedding) (st : scan)
    (chunk : CodeChunk.t) : scan :=
  let embedding_text := _create_embedding_text chunk in
  let text_hash := _get_text_hash embedding_text in
  match cache !! text_hash with
  | Some e =>
      Scan (texts_to_embed st) (chunk_ids st)
           (cached_embeddings st ++ [(CodeChunk.id chunk, e)])
  | None =>
      Scan (texts_to_embed st ++ [embedding_text])
           (chunk_ids st ++ [(CodeChunk.id chunk, text_hash)])
           (cached_embeddings st)
  end.

Definition scan_chunks (cache : gmap string Embedding)
    (chunks : list CodeChunk.t) : scan :=
  fold_left (scan_step cache) chunks (Scan [] [] []).

(** The loop over [zip(chunk_ids, all_embeddings)]. *)
Definition store_step
    (acc : gmap string Embedding * list (string * Embedding))
    (item : (string * string) * Embedding)
  : gmap string Embedding * list (string * Embedding) :=
  let '((chunk_id, text_hash), embedding) := item in
  (<[text_hash := embedding]> (fst acc), snd acc ++ [(chunk_id, embedding)]).

(** What one call leaves behind: the returned list, the cache, and the
    batches handed to [self.model.encode], in call order. *)
Record run := Run {
  result : list (string * Embedding);
  cache_after : gmap string Embedding;
  model_calls : list (list string)
}.

Definition generate_embeddings (model_initialized : bool)
    (cache : gmap string Embedding) (chunks : list CodeChunk.t)
  : outcome run :=
  if negb model_initialized
  then Raise (RuntimeError "Model not initialized. Call initialize() first.")
  else
    match chunks with
    | [] => Return (Run [] cache [])
    | _ :: _ =>
        let st := scan_chunks cache chunks in
        let batch_size := 32%nat in
        let calls := PyList.batches batch_size (texts_to_embed st) in
        let all_embeddings := concat (map encode calls) in
        let '(cache', new_embeddings) :=
          fold_left store_step (combine (chunk_ids st) all_embeddings)
                    (cache, []) in
        Return (Run (cached_embeddings st ++ new_embeddings) cache' calls)
    end.

End Service.
End Embeddings.

(** ** The vector store: qdrant_client.py *)

Module VectorStore.

Inductive UpdateStatus := ACKNOWLEDGED | COMPLETED.

Section Store.
Variable Embedding : Type.
(** A payload or filter value. *)
Variable Value : Type.

Record Payload := MkPayload {
  chunk : CodeChunk.t;
  last_modified : string
}.

Record PointStruct := MkPoint {
  point_id : string;
  vector : Embedding;
  point_payload : Payload
}.

Record ScoredPoint := MkScored {
  scored_id : string;
  scored_score : Q;
  scored_payload : Payload
}.

Record FieldCondition := MkCondition { key : string; match_value : Value }.

(** A value of the [filters] dictionary: one value or a list. *)
Inductive filter_value :=
| Single (v : Value)
| Multiple (vs : list Value).

Record SearchRequest := MkSearch {
  query_vector : Embedding;
  query_filter : option (list FieldCondition);   (* [Filter(should=...)] *)
  limit : Z;
  score_threshold : Q
}.

(** The Qdrant server, seen through [self.client]: every call either
    returns or raises.  [client_upsert k] is the [k]-th upsert of one
    [store_chunks] call. *)
Variable client_upsert : nat -> list PointStruct -> outcome UpdateStatus.
Variable client_search : SearchRequest -> outcome (list ScoredPoint).
Variable client_delete : string -> outcome UpdateStatus.
(** [Match(value=v)] of the qdrant client library: it gives the match
    condition for [v] or raises.  (In qdrant-client 1.7.0, the version the
    project installs, [Match] is a [typing.Union], and calling it raises
    [TypeError].) *)
Variable Match : forall A : Type, A -> outcome A.
(** [str(uuid.uuid4())] and [datetime.utcnow().isoformat()] for the
    [k]-th point. *)
Variable uuid4 : nat -> string.
Variable utcnow : nat -> string.

Record store := MkStore {
  client : bool;               (* [self.client] is set *)
  _collection_exists : bool
}.

Definition not_ready (s : store) : bool :=
  negb (client s) || negb (_collection_exists s).

Definition not_ready_error : exception :=
  RuntimeError "Client not initialized or collection doesn't exist".

Fixpoint make_points (k : nat) (items : list (CodeChunk.t * Embedding))
  : list PointStruct :=
  match items with
  | [] => []
  | (c, embedding) :: rest =>
      MkPoint (uuid4 k) embedding (MkPayload c (utcnow k))
      :: make_points (S k) rest
  end.

(** The loop over the batches: [false] at the first batch that raises
    or does not complete. *)
Fixpoint upsert_batches (k : nat) (batches : list (list PointStruct))
  : bool :=
  match batches with
  | [] => true
  | batch :: rest =>
      match client_upsert k batch with
      | Return COMPLETED => upsert_batches (S k) rest
      | Return _ => false
      | Raise _ => false
      end
  end.

Definition store_chunks (s : store)
    (chunks_with_embeddings : list (CodeChunk.t * Embedding))
  : outcome bool :=
  if not_ready s then Raise not_ready_error
  else
    match chunks_with_embeddings with
    | [] => Return true
    | _ :: _ =>
        let points := make_points 0 chunks_with_embeddings in
        Return (upsert_batches 0 (PyList.batches 100 points))
    end.

(** The conditions for the values of one field, in order; the first
    [Match] that raises ends the loop. *)
Fixpoint match_all (field : string) (values : list Value)
  : outcome (list FieldCondition) :=
  match values with
  | [] => Return []
  | v :: rest =>
      match Match Value v with
      | Raise e => Raise e
      | Return matched =>
          match match_all field rest with
          | Raise e => Raise e
          | Return conditions => Return (MkCondition field matched :: conditions)
          end
      end
  end.

Definition conditions_of (item : string * filter_value)
  : outcome (list FieldCondition) :=
  match snd item with
  | Multiple vs => match_all (fst item) vs
  | Single v => match_all (fst item) [v]
  end.

(** The loop over [filters.items()]. *)
Fixpoint all_conditions (items : list (string * filter_value))
  : outcome (list FieldCondition) :=
  match items with
  | [] => Return []
  | item :: rest =>
      match conditions_of item with
      | Raise e => Raise e
      | Return conditions =>
          match all_conditions rest with
          | Raise e => Raise e
          | Return more => Return (conditions ++ more)
          end
      end
  end.

Definition build_filter (filters : option (list (string * filter_value)))
  : outcome (option (list FieldCondition)) :=
  match filters with
  | None | Some [] => Return None
  | Some items =>
      match all_conditions items with
      | Raise e => Raise e
      | Return [] => Return None
      | Return conditions => Return (Some conditions)
      end
  end.

Record search_hit := MkHit {
  hit_id : string;
  hit_score : Q;
  hit_payload : Payload
}.

Definition search_similar (s : store) (query_embedding : Embedding)
    (limit : Z) (score_threshold : Q)
    (filters : option (list (string * filter_value)))
  : outcome (list search_hit) :=
  if not_ready s then Raise not_ready_error
  else
    match build_filter filters with
    | Raise _ => Return []
    | Return filter_conditions =>
        let request :=
          MkSearch query_embedding filter_conditions limit score_threshold in
        match client_search request with
        | Return search_result =>
            Return (map (fun p => MkHit (scored_id p) (scored_score p)
                                        (scored_payload p)) search_result)
        | Raise _ => Return []
        end
    end.

Definition delete_by_file_path (s : store) (file_path : string)
  : outcome bool :=
  if not_ready s then Raise not_ready_error
  else
    match Match string file_path with
    | Raise _ => Return false
    | Return path =>
        match client_delete path with
        | Return COMPLETED => Return true
        | Return _ => Return false
        | Raise _ => Return false
        end
    end.
End Store.
End VectorStore.

(** ** Provider selection: llm_service.py *)

Module ModelInfo.
Record t := Build {
  id : string;
  name : string;
  provider : string;
  type : string;
  context_length : Z;
  recommended : bool;
  description : string;
  cost_per_1k_tokens : option (list (string * Q))
}.
End ModelInfo.

Module ProviderStatus.
Record t := Build {
  name : string;
  available : bool;
  models : list ModelInfo.t;
  error : option string;
  response_time : option Q
}.
End ProviderStatus.

Module ModelProvider.
Inductive t := OLLAMA | OPENAI | ANTHROPIC | GROQ | GOOGLE | TOGETHER.

Definition value (p : t) : string :=
  match p with
  | OLLAMA => "ollama" | OPENAI => "openai" | ANTHROPIC => "anthropic"
  | GROQ => "groq" | GOOGLE => "google" | TOGETHER => "together"
  end.

Definition members : list t :=
  [OLLAMA; OPENAI; ANTHROPIC; GROQ; GOOGLE; TOGETHER].

(** [ModelProvider(s)]: the member with that value, if any. *)
Definition of_value (s : string) : option t :=
  List.find (fun p => String.eqb (value p) s) members.
End ModelProvider.

Module LLM.

(** The ["type"] entries of [MODEL_PROVIDERS] in app/core/config.py. *)
Definition MODEL_PROVIDERS : list (string * string) :=
  [ ("ollama", "local"); ("openai", "online"); ("anthropic", "online");
    ("google", "online"); ("groq", "online"); ("together", "online") ].

(** [d.get(k)] on a dictionary kept as an association list in insertion
    order. *)
Fixpoint dict_get {A : Type} (k : string) (d : list (string * A)) : option A :=
  match d with
  | [] => None
  | (k', v) :: rest => if String.eqb k k' then Some v else dict_get k rest
  end.

Record service := Service {
  provider_status : list (string * ProviderStatus.t);
  current_mode : string
}.

Definition selection : Type := option ModelProvider.t * option string.

Definition mode_matches (mode : option string) (ps : ProviderStatus.t) : bool :=
  match mode with
  | Some m =>
      if PyStr.truthy mode then
        match dict_get (ProviderStatus.name ps) MODEL_PROVIDERS with
        | Some ty => String.eqb ty m
        | None => false
        end
      else true
  | None => true
  end.

Definition get_available_providers (self : service) (mode : option string)
  : list ProviderStatus.t :=
  List.filter (fun ps => ProviderStatus.available ps && mode_matches mode ps)
              (map snd (provider_status self)).

(** [p.response_time or float('inf')] *)
Inductive latency := Finite (t : Q) | Infinite.

Definition latency_key (p : ProviderStatus.t) : latency :=
  match ProviderStatus.response_time p with
  | Some t => if Qeq_bool t 0 then Infinite else Finite t
  | None => Infinite
  end.

Definition latency_ltb (a b : latency) : bool :=
  match a, b with
  | Finite x, Finite y => negb (Qle_bool y x)
  | Finite _, Infinite => true
  | Infinite, _ => false
  end.

(** [min(l, key=latency_key)]: the first element whose key is least. *)
Definition min_by_latency (l : list ProviderStatus.t) : option ProviderStatus.t :=
  match l with
  | [] => None
  | p :: rest =>
      Some (fold_left
              (fun best q =>
                 if latency_ltb (latency_key q) (latency_key best)
                 then q else best)
              rest p)
  end.

(** [next((m for m in models if m.recommended), models[0])], [None] for
    an empty list. *)
Definition recommended_model (models : list ModelInfo.t) : option ModelInfo.t :=
  match List.find ModelInfo.recommended models with
  | Some m => Some m
  | None => List.head models
  end.

(** [return ModelProvider(name), model.id] *)
Definition select (name : string) (m : ModelInfo.t) : outcome selection :=
  match ModelProvider.of_value name with
  | Some p => Return (Some p, Some (ModelInfo.id m))
  | None => Raise (ValueError name)
  end.

Definition usable (ps : ProviderStatus.t) : bool :=
  ProviderStatus.available ps
  && negb (Nat.eqb (length (ProviderStatus.models ps)) 0).

(** First stage: the preferred provider. *)
Definition try_preferred (self : service) (preferred : option string)
  : option (outcome selection) :=
  match preferred with
  | Some p =>
      if PyStr.truthy preferred then
        match dict_get p (provider_status self) with
        | Some status =>
            if usable status then
              match recommended_model (ProviderStatus.models status) with
              | Some m => Some (select p m)
              | None => None
              end
            else None
        | None => None
        end
      else None
  | None => None
  end.

Definition mode_filter (self : service) : option string :=
  if String.eqb (current_mode self) "local" then Some "local"
  else if String.eqb (current_mode self) "online" then Some "online"
  else None.

(** Second stage: the fastest provider of the current mode. *)
Definition try_mode (self : service) : option (outcome selection) :=
  match min_by_latency (get_available_providers self (mode_filter self)) with
  | Some best_provider =>
      match recommended_model (ProviderStatus.models best_provider) with
      | Some m => Some (select (ProviderStatus.name best_provider) m)
      | None => None
      end
  | None => None
  end.

(** Third stage: any available provider with a model. *)
Fixpoint fallback (statuses : list ProviderStatus.t) : outcome selection :=
  match statuses with
  | [] => Return (None, None)
  | ps :: rest =>
      if usable ps then
        match recommended_model (ProviderStatus.models ps) with
        | Some m => select (ProviderStatus.name ps) m
        | None => fallback rest
        end
      else fallback rest
  end.

Definition select_best_provider (self : service) (preferred : option string)
  : outcome selection :=
  match try_preferred self preferred with
  | Some r => r
  | None =>
      match try_mode self with
      | Some r => r
      | None => fallback (map snd (provider_status self))
      end
  end.

(** *** [_build_messages] and [_messages_to_prompt] *)
Record message := Msg { role : string; content : string }.






End LLM.

(** ** Streaming sessions: websocket_manager.py

    The manager is run by one asyncio event loop.  The model keeps the two
    dictionaries of [WebSocketManager], the pool of asyncio tasks made by
    [asyncio.create_task] (a task is named by its position in the pool),
    and the log of the messages [websocket.send_text] has accepted.

    A task runs [_stream_response].  It is [Pending] until the loop first
    runs it, then [Streaming] (suspended in [async for], waiting for the
    generator), [Running] while its code is being executed, and [Done] in
    the end.  What wakes a [Streaming] task is an [event] of its generator,
    or the [CancelledError] that [task.cancel()] throws into it.

    The socket belongs to the environment: it has its [client_state], and
    its [send_text] and [close] either return or raise.  [accept] is taken
    to return normally.  A call of [send_text] or [close] is one step: it
    returns or raises without another coroutine running in between, so a
    cancellation reaches a task only where it waits for its generator.
    Each operation below runs to its end in the same way. *)

Module WebSocket.

Inductive WebSocketState := CONNECTING | CONNECTED | DISCONNECTED.

(** A [fastapi.WebSocket], as far as the manager uses it. *)
Record Socket := MkSocket {
  client_state : WebSocketState;
  send_text_raises : bool;
  close_raises : bool
}.

Definition Metadata : Type := list (string * string).

(** The messages the manager sends; the [timestamp] field is left out. *)
Inductive Message :=
| STREAM_CHUNK (task_id : string) (chunk : string)
| STREAM_COMPLETE (task_id : string) (metadata : Metadata)
| STREAM_ERROR (task_id : string) (error : string)
| STATUS_UPDATE (status : string) (message : string)
| ERROR (error : string)
| PONG.

Record WebSocketConnection := Connection {
  websocket : Socket;
  client_id : string;
  connected_at : Q;
  last_activity : Q;
  is_streaming : bool;
  current_task_id : option string
}.

Inductive TaskState := Pending | Streaming | Running | Done.

(** An [asyncio.Task] running
    [_stream_response(client_id, task_id, stream_generator, metadata)]. *)
Record Task := MkTask {
  task_client : string;
  task_id : string;
  task_metadata : option Metadata;
  task_state : TaskState
}.

Record Manager := MkManager {
  connections : gmap string WebSocketConnection;
  streaming_tasks : gmap string nat;
  tasks : list Task;
  sent : list (string * Message)
}.

Definition empty : Manager := MkManager ∅ ∅ [] [].

(** What the generator does when the task waits on it; [Cancelled] is the
    [CancelledError] delivered at that point. *)
Inductive event :=
| Yield (chunk : string)
| Exhausted
| Raised (error : string)
| Cancelled.

Definition set_connections (m : Manager)
    (c : gmap string WebSocketConnection) : Manager :=
  MkManager c (streaming_tasks m) (tasks m) (sent m).

Definition set_streaming_tasks (m : Manager) (r : gmap string nat) : Manager :=
  MkManager (connections m) r (tasks m) (sent m).

Definition set_task_state (m : Manager) (h : nat) (s : TaskState) : Manager :=
  MkManager (connections m) (streaming_tasks m)
    (alter (fun t => MkTask (task_client t) (task_id t) (task_metadata t) s)
           h (tasks m))
    (sent m).

Definition set_websocket (c : WebSocketConnection) (s : Socket)
  : WebSocketConnection :=
  Connection s (client_id c) (connected_at c) (last_activity c)
             (is_streaming c) (current_task_id c).

Definition set_task (c : WebSocketConnection) (streaming : bool)
    (task : option string) : WebSocketConnection :=
  Connection (websocket c) (client_id c) (connected_at c) (last_activity c)
             streaming task.

Definition is_connected (s : WebSocketState) : bool :=
  match s with CONNECTED => true | _ => false end.

Definition is_done (s : TaskState) : bool :=
  match s with Done => true | _ => false end.

(** [task.done()] for the task at [h]. *)
Definition done (m : Manager) (h : nat) : bool :=
  match tasks m !! h with
  | Some t => is_done (task_state t)
  | None => true
  end.

Definition _cleanup_streaming_task (m : Manager) (client task : string)
  : Manager :=
  let m1 := set_connections m
              (alter (fun c => set_task c false None) client (connections m)) in
  set_streaming_tasks m1 (delete task (streaming_tasks m1)).

(** [metadata or {}] *)
Definition metadata_or_empty (metadata : option Metadata) : Metadata :=
  match metadata with Some d => d | None => [] end.

(** *** The methods that call one another.

    [send_message] calls [disconnect] when [send_text] raises;
    [disconnect] cancels the connection's task and waits for it; the task
    then runs the [except] and [finally] blocks of [_stream_response],
    which call [send_message].  The methods are first written with the
    [send_message] they call left open. *)

Module Body.
Section Methods.
Variable send_message : Manager -> string -> Message -> Manager * bool.

(** The end of the [try] block and the [finally]. *)
Definition send_complete (m : Manager) (h : nat) (t : Task) : Manager :=
  let m1 := fst (send_message m (task_client t)
                   (STREAM_COMPLETE (task_id t)
                      (metadata_or_empty (task_metadata t)))) in
  set_task_state (_cleanup_streaming_task m1 (task_client t) (task_id t)) h Done.

(** The two [except] blocks and the [finally]. *)
Definition send_stream_error (m : Manager) (h : nat) (t : Task)
    (error : string) : Manager :=
  let m1 := fst (send_message m (task_client t)
                   (STREAM_ERROR (task_id t) error)) in
  set_task_state (_cleanup_streaming_task m1 (task_client t) (task_id t)) h Done.

(** [_stream_response], resumed inside its [try] block by [ev]; the task
    is [Running] until it waits for the generator again or ends. *)
Definition stream_body (m : Manager) (h : nat) (t : Task) (ev : event)
  : Manager :=
  let m := set_task_state m h Running in
  match ev with
  | Yield chunk =>
      match streaming_tasks m !! task_id t with
      | None => send_complete m h t                           (* break *)
      | Some _ =>
          let '(m1, success) :=
            send_message m (task_client t) (STREAM_CHUNK (task_id t) chunk) in
          if success then set_task_state m1 h Streaming
          else send_complete m1 h t                           (* break *)
      end
  | Exhausted => send_complete m h t
  | Cancelled => send_stream_error m h t "Generation was stopped"
  | Raised error => send_stream_error m h t error
  end.

(** The event loop runs task [h] on [ev].  A task cancelled before its
    first run ends without entering [_stream_response].  A [Running] task
    is the one being executed: an event cannot reach it, and a cancellation
    comes from its own call of [task.cancel()], which [await task] turns
    into a [CancelledError] at that place, where it is caught. *)
Definition _stream_response (m : Manager) (h : nat) (ev : event) : Manager :=
  match tasks m !! h with
  | None => m
  | Some t =>
      match task_state t, ev with
      | Done, _ => m
      | Running, _ => m
      | Pending, Cancelled => set_task_state m h Done
      | _, _ => stream_body m h t ev
      end
  end.

Definition _cancel_streaming_task (m : Manager) (task : string) : Manager :=
  let m1 :=
    match streaming_tasks m !! task with
    | Some h => if done m h then m else _stream_response m h Cancelled
    | None => m
    end in
  set_streaming_tasks m1 (delete task (streaming_tasks m1)).

Definition cancel_current (m : Manager) (connection : WebSocketConnection)
  : Manager :=
  match current_task_id connection with
  | Some task =>
      if PyStr.truthy (current_task_id connection)
      then _cancel_streaming_task m task else m
  | None => m
  end.

(** When [websocket.close()] raises, the [except] block logs the error
    and the connection stays in the dictionary. *)
Definition disconnect (m : Manager) (client : string) : Manager :=
  match connections m !! client with
  | None => m
  | Some connection =>
      let m1 := cancel_current m connection in
      if is_connected (client_state (websocket connection))
         && close_raises (websocket connection)
      then m1
      else set_connections m1 (delete client (connections m1))
  end.

End Methods.
End Body.

(** [send_message], calls of [send_message] from within it being nested
    at most [depth] deep. *)
Fixpoint send_message_within (depth : nat) (m : Manager) (client : string)
    (message : Message) : Manager * bool :=
  match connections m !! client with
  | None => (m, false)
  | Some connection =>
      if is_connected (client_state (websocket connection)) then
        if send_text_raises (websocket connection) then
          match depth with
          | S depth' =>
              (Body.disconnect (send_message_within depth') m client, false)
          | O => (m, false)
          end
        else (MkManager (connections m) (streaming_tasks m) (tasks m)
                        (sent m ++ [(client, message)]), true)
      else (m, false)
  end.

(** A nested call of [send_message] is made by a task that was [Streaming]
    and is [Running] meanwhile, so the calls are nested no deeper than
    there are tasks. *)
Definition send_message (m : Manager) (client : string) (message : Message)
  : Manager * bool :=
  send_message_within (S (length (tasks m))) m client message.

Definition send_error (m : Manager) (client : string) (error_message : string)
  : Manager :=
  fst (send_message m client (ERROR error_message)).

Definition _stream_response : Manager -> nat -> event -> Manager :=
  Body._stream_response send_message.

Definition _cancel_streaming_task : Manager -> string -> Manager :=
  Body._cancel_streaming_task send_message.

Definition cancel_current : Manager -> WebSocketConnection -> Manager :=
  Body.cancel_current send_message.

Definition disconnect : Manager -> string -> Manager :=
  Body.disconnect send_message.

(** The loop gives a pending task its first run, up to the first wait on
    the generator. *)
Definition first_run (m : Manager) (h : nat) : Manager :=
  match tasks m !! h with
  | Some t =>
      match task_state t with
      | Pending => set_task_state m h Streaming
      | _ => m
      end
  | None => m
  end.

Definition connect (m : Manager) (client : string) (now : Q) : Manager * bool :=
  let connection :=
    Connection (MkSocket CONNECTED false false) client now now false None in
  let m1 := set_connections m (<[client := connection]> (connections m)) in
  (fst (send_message m1 client
          (STATUS_UPDATE "connected" "WebSocket connection established")),
   true).

Definition start_streaming_response (m : Manager) (client task : string)
    (metadata : option Metadata) : Manager :=
  match connections m !! client with
  | None => m
  | Some connection =>
      let m1 := cancel_current m connection in
      let h := length (tasks m1) in
      MkManager
        (alter (fun c => set_task c true (Some task)) client (connections m1))
        (<[task := h]> (streaming_tasks m1))
        (tasks m1 ++ [MkTask client task metadata Pending])
        (sent m1)
  end.

Definition _handle_stop_generation (m : Manager) (client : string) : Manager :=
  match connections m !! client with
  | Some connection =>
      if PyStr.truthy (current_task_id connection) then
        fst (send_message (cancel_current m connection) client
               (STATUS_UPDATE "stopped" "Generation stopped by user"))
      else m
  | None => m
  end.

(** The peer closes its end: the socket is no longer [CONNECTED]. *)
Definition peer_closed (m : Manager) (client : string) : Manager :=
  set_connections m
    (alter (fun c =>
              set_websocket c
                (MkSocket DISCONNECTED (send_text_raises (websocket c))
                          (close_raises (websocket c))))
           client (connections m)).


(** *** Incoming messages *)

Module MessageType.
Inductive t :=
| STREAM_QUERY | STREAM_CHUNK | STREAM_COMPLETE | STREAM_ERROR
| STOP_GENERATION | PING | PONG | STATUS_UPDATE | ERROR.

Definition value (k : t) : string :=
  match k with
  | STREAM_QUERY => "stream_query" | STREAM_CHUNK => "stream_chunk"
  | STREAM_COMPLETE => "stream_complete" | STREAM_ERROR => "stream_error"
  | STOP_GENERATION => "stop_generation" | PING => "ping" | PONG => "pong"
  | STATUS_UPDATE => "status_update" | ERROR => "error"
  end.

Definition members : list t :=
  [STREAM_QUERY; STREAM_CHUNK; STREAM_COMPLETE; STREAM_ERROR;
   STOP_GENERATION; PING; PONG; STATUS_UPDATE; ERROR].

(** [MessageType(s)] *)
Definition of_value (s : string) : option t :=
  List.find (fun k => String.eqb (value k) s) members.
End MessageType.

Definition _handle_ping (m : Manager) (client : string) : Manager :=
  fst (send_message m client PONG).

(** [_handle_stream_query], the RAG service being at hand: [task_id] is
    the message's ["task_id"], [query] its ["data"]["query"] (or [""]),
    [now] is [int(time.time())]. *)
Definition _handle_stream_query (m : Manager) (client : string)
    (task_id : option string) (query : string) (now : nat) : Manager :=
  let task :=
    match task_id with
    | Some t => if PyStr.truthy task_id then t
                else ("task_" ++ PyStr.of_nat now)%string
    | None => ("task_" ++ PyStr.of_nat now)%string
    end in
  start_streaming_response m client task
    (Some [("query", query); ("provider", "default"); ("model", "default")]).

Definition touch (c : WebSocketConnection) (now : Q) : WebSocketConnection :=
  Connection (websocket c) (client_id c) (connected_at c) now
             (is_streaming c) (current_task_id c).

(** [handle_message]: [message_type] is [message.get("type")]; the other
    fields of the message are those [_handle_stream_query] reads. *)
Definition handle_message (m : Manager) (client : string) (time : Q)
    (message_type : option string) (task_id : option string)
    (query : string) (now : nat) : Manager :=
  match connections m !! client with
  | None => m
  | Some connection =>
      let m := set_connections m
                 (<[client := touch connection time]> (connections m)) in
      match message_type with
      | Some s =>
          if PyStr.truthy message_type then
            match MessageType.of_value s with
            | Some MessageType.STREAM_QUERY =>
                _handle_stream_query m client task_id query now
            | Some MessageType.STOP_GENERATION =>
                _handle_stop_generation m client
            | Some MessageType.PING => _handle_ping m client
            | Some _ =>
                send_error m client ("No handler for message type: " ++ s)
            | None => send_error m client ("Unknown message type: " ++ s)
            end
          else send_error m client "Missing message type"
      | None => send_error m client "Missing message type"
      end
  end.

(** [get_connection_count] and [get_streaming_count] *)
Definition get_connection_count (m : Manager) : nat := size (connections m).

Definition get_streaming_count (m : Manager) : nat :=
  length (List.filter (fun kc => is_streaming (snd kc))
                      (map_to_list (connections m))).

(** *** What the claims speak of *)

Definition is_terminal (task : string) (msg : Message) : bool :=
  match msg with
  | STREAM_COMPLETE t _ | STREAM_ERROR t _ => String.eqb t task
  | _ => false
  end.

(** The terminal messages of [task] that reached [client]. *)
Definition terminal_messages (client task : string)
    (log : list (string * Message)) : list Message :=
  map snd (List.filter
             (fun cm => String.eqb (fst cm) client && is_terminal task (snd cm))
             log).

(** The tasks of [client] that have not ended, by their place in the pool. *)
Definition active_tasks (m : Manager) (client : string) : list nat :=
  map fst (List.filter
             (fun ht => String.eqb (task_client (snd ht)) client
                        && negb (is_done (task_state (snd ht))))
             (combine (seq 0 (length (tasks m))) (tasks m))).

Definition at_most_one_active (m : Manager) : Prop :=
  forall client, (length (active_tasks m client) <= 1)%nat.

End WebSocket.

(** ** Notions used to state the properties *)

Module Props.

(** The lines of a chunk's content. *)
Definition lines_of (c : CodeChunk.t) : list string :=
  PyStr.split PyStr.newline (CodeChunk.content c).

(** The line ranges of [subs] follow one another without gap or overlap,
    from line [first] to line [last], and each range is as long as the
    content of its chunk. *)
Fixpoint tiles (first : Z) (subs : list CodeChunk.t) (last : Z) : Prop :=
  match subs with
  | [] => last = first - 1
  | s :: rest =>
      CodeChunk.line_start s = first
      /\ CodeChunk.line_end s
         = CodeChunk.line_start s + Z.of_nat (length (lines_of s)) - 1
      /\ tiles (CodeChunk.line_end s + 1) rest last
  end.

(** The summed length of the lines of a text, separators not counted. *)
Definition lines_size (lines : list string) : nat :=
  list_sum (map PyStr.len lines).

(** The keywords of the fixed set that occur in a line, once the line is
    stripped and lowercased. *)
Definition keywords_in (line : string) : list string :=
  List.filter (fun k => PyStr.contains k (PyStr.lower (PyStr.strip line)))
              Parser.complexity_keywords.

(** The number of (line, keyword) pairs of a text with the keyword
    occurring in the line. *)
Definition keyword_hits (content : string) : nat :=
  list_sum (map (fun line => length (keywords_in line))
                (PyStr.split PyStr.newline content)).

(** The number of lines in which some keyword occurs. *)
Definition keyword_lines (content : string) : nat :=
  length (List.filter (fun line => negb (Nat.eqb (length (keywords_in line)) 0))
                      (PyStr.split PyStr.newline content)).

Definition line_count (content : string) : Q :=
  inject_Z (Z.of_nat (Nat.max (length (PyStr.split PyStr.newline content)) 1)).

(** The complexity score in the design document's words: 1.0, plus 0.5
    per line containing any keyword, divided by the number of lines,
    clamped to [0, 10]. *)
Definition complexity_per_line (content : string) : Q :=
  Qmax 0 (Qmin ((1 + (1 # 2) * inject_Z (Z.of_nat (keyword_lines content)))
                / line_count content) 10).

(** A change of characters that leaves the character [c] alone and
    turns no other character into it. *)
Definition keeps (f : ascii -> ascii) (c : ascii) : Prop :=
  forall a, Ascii.eqb (f a) c = Ascii.eqb a c.

(** [subs] are the chunks made from the groups of lines [groups], the
    first of them starting at line [first]. *)
Fixpoint built (first : Z) (subs : list CodeChunk.t)
    (groups : list (list string)) : Prop :=
  match subs, groups with
  | [], [] => True
  | s :: subs', g :: groups' =>
      g <> []
      /\ CodeChunk.content s = PyStr.join PyStr.nl g
      /\ CodeChunk.line_start s = first
      /\ CodeChunk.line_end s = first + Z.of_nat (length g) - 1
      /\ built (first + Z.of_nat (length g)) subs' groups'
  | _, _ => False
  end.

(** A group of lines is within the size limit the way [_split_chunk]
    counts it, or is a single line. *)
Definition within (max_size : Z) (g : list string) : Prop :=
  length g = 1%nat \/ Z.of_nat (lines_size g) <= max_size.

(** What holds of the state of the loop of [_split_chunk] once the lines
    [seen] are consumed, [groups] being the groups of lines flushed so
    far. *)
Definition loop_inv (chunk : CodeChunk.t) (max_size : Z)
    (seen : list string) (st : Parser.split_state)
    (groups : list (list string)) : Prop :=
  built (CodeChunk.line_start chunk) (Parser.sub_chunks st) groups
  /\ concat groups ++ Parser.current_content st = seen
  /\ Parser.start_line st
     = CodeChunk.line_start chunk + Z.of_nat (length (concat groups))
  /\ Parser.current_size st
     = Z.of_nat (lines_size (Parser.current_content st))
  /\ (Parser.current_content st = [] -> seen = [])
  /\ Forall (within max_size) groups
  /\ ((length (Parser.current_content st) <= 1)%nat
      \/ Z.of_nat (lines_size (Parser.current_content st)) <= max_size).

(** The chunk ids of an embedding result. *)
Definition ids {E : Type} (l : list (string * E)) : list string := map fst l.

End Props.

(** Notions for the embedding service. *)

Module EmbeddingProps.
Section Notions.
Variable Embedding : Type.
Variable md5_hexdigest : string -> string.

(** The cache key of a chunk. *)
Definition hash_of (chunk : CodeChunk.t) : string :=
  Embeddings._get_text_hash md5_hexdigest
    (Embeddings._create_embedding_text chunk).

(** The chunk's key is in the cache. *)
Definition is_hit (cache : gmap string Embedding) (chunk : CodeChunk.t)
  : bool :=
  match cache !! hash_of chunk with Some _ => true | None => false end.

Definition hits (cache : gmap string Embedding) (chunks : list CodeChunk.t)
  : list CodeChunk.t :=
  List.filter (is_hit cache) chunks.

Definition misses (cache : gmap string Embedding) (chunks : list CodeChunk.t)
  : list CodeChunk.t :=
  List.filter (fun c => negb (is_hit cache c)) chunks.

(** The pairs served from the cache, in input order. *)
Definition cached_pairs (cache : gmap string Embedding)
    (chunks : list CodeChunk.t) : list (string * Embedding) :=
  flat_map (fun c => match cache !! hash_of c with
                     | Some e => [(CodeChunk.id c, e)]
                     | None => []
                     end) chunks.
End Notions.

(** Two chunks agree on every field the embedding text is built from. *)
Definition same_text_fields (c1 c2 : CodeChunk.t) : Prop :=
  CodeChunk.language c1 = CodeChunk.language c2
  /\ CodeChunk.chunk_type c1 = CodeChunk.chunk_type c2
  /\ CodeChunk.function_name c1 = CodeChunk.function_name c2
  /\ CodeChunk.class_name c1 = CodeChunk.class_name c2
  /\ CodeChunk.module_name c1 = CodeChunk.module_name c2
  /\ CodeChunk.content c1 = CodeChunk.content c2
  /\ CodeChunk.docstring c1 = CodeChunk.docstring c2
  /\ CodeChunk.context c1 = CodeChunk.context c2.
End EmbeddingProps.

(** Notions for provider selection. *)

Module SelectionProps.

(** The measured latency of a provider, a provider without measurement
    counting as slowest. *)
Definition measured (p : ProviderStatus.t) : LLM.latency :=
  match ProviderStatus.response_time p with
  | Some t => LLM.Finite t
  | None => LLM.Infinite
  end.

Definition faster (a b : LLM.latency) : Prop :=
  match a, b with
  | LLM.Finite x, LLM.Finite y => (x < y)%Q
  | LLM.Finite _, LLM.Infinite => True
  | LLM.Infinite, _ => False
  end.

Definition no_slower (a b : LLM.latency) : Prop :=
  match a, b with
  | LLM.Finite x, LLM.Finite y => (x <= y)%Q
  | _, LLM.Infinite => True
  | LLM.Infinite, LLM.Finite _ => False
  end.

(** No listed provider has a measured latency of exactly zero. *)
Definition nonzero_latencies (l : list ProviderStatus.t) : Prop :=
  forall p t, In p l -> ProviderStatus.response_time p = Some t -> ~ (t == 0)%Q.

(** The status table as [_check_all_providers_status] fills it: every
    entry is filed under its own name, and the name is a [ModelProvider]
    value. *)
Definition well_formed (self : LLM.service) : Prop :=
  forall k ps, In (k, ps) (LLM.provider_status self) ->
    ProviderStatus.name ps = k
    /\ exists p, ModelProvider.of_value k = Some p.

(** The preferred provider cannot be used: none is named, or it is not in
    the table, or it is unavailable, or it has no model. *)
Definition preferred_unusable (self : LLM.service) (preferred : option string)
  : Prop :=
  match preferred with
  | None => True
  | Some p =>
      p = ""
      \/ match LLM.dict_get p (LLM.provider_status self) with
         | None => True
         | Some status =>
             ProviderStatus.available status = false
             \/ ProviderStatus.models status = []
         end
  end.

(** [m] is the first recommended model of the list, or its first model
    when none is recommended. *)
Definition first_choice (models : list ModelInfo.t) (m : ModelInfo.t) : Prop :=
  (exists before after,
      models = before ++ m :: after
      /\ ModelInfo.recommended m = true
      /\ Forall (fun x => ModelInfo.recommended x = false) before)
  \/ (Forall (fun x => ModelInfo.recommended x = false) models
      /\ List.head models = Some m).

(** The provider is available and has a model. *)
Definition has_model (ps : ProviderStatus.t) : Prop :=
  ProviderStatus.available ps = true /\ ProviderStatus.models ps <> [].

(** The call returns a provider and a model. *)
Definition selects (r : outcome LLM.selection) (name model : string) : Prop :=
  exists p, ModelProvider.of_value name = Some p
            /\ r = Return (Some p, Some model).

End SelectionProps.

(** Notions for the streaming sessions. *)

Module SessionProps.

(** The event loop resumes task [h] on the events [evs], one after the
    other, nothing else running in between. *)
Definition run (m : WebSocket.Manager) (h : nat) (evs : list WebSocket.event)
  : WebSocket.Manager :=
  fold_left (fun m ev => WebSocket._stream_response m h ev) evs m.



(** Task [h] runs [_stream_response] for [client] and [task], with
    [metadata], and is in state [s]. *)
Definition task_is (m : WebSocket.Manager) (h : nat) (client task : string)
    (metadata : option WebSocket.Metadata) (s : WebSocket.TaskState) : Prop :=
  WebSocket.tasks m !! h = Some (WebSocket.MkTask client task metadata s).

(** The connection of [client] is registered, its socket is connected and
    takes what is sent. *)
Definition reachable (m : WebSocket.Manager) (client : string) : Prop :=
  exists connection,
    WebSocket.connections m !! client = Some connection
    /\ WebSocket.client_state (WebSocket.websocket connection)
       = WebSocket.CONNECTED
    /\ WebSocket.send_text_raises (WebSocket.websocket connection) = false.

(** The task id [task] is registered to task [h], as
    [start_streaming_response] leaves it. *)
Definition registered (m : WebSocket.Manager) (task : string) (h : nat)
  : Prop :=
  WebSocket.streaming_tasks m !! task = Some h.

Definition is_streaming (t : WebSocket.Task) : bool :=
  match WebSocket.task_state t with
  | WebSocket.Streaming => true
  | _ => false
  end.

(** The number of tasks that wait for their generator. *)
Definition streaming_count (m : WebSocket.Manager) : nat :=
  length (List.filter is_streaming (WebSocket.tasks m)).

End SessionProps.

(** Notions for the sub-chunks and the syntax-tree chunks. *)

Module ChunkProps.








(** The node lies within the text: its rows are rows of the text, the
    first not after the last. *)
Definition in_text (node : TreeSitter.Node) (content : string) : Prop :=
  (TreeSitter.start_row node <= TreeSitter.end_row node
   < length (PyStr.split PyStr.newline content))%nat.

(** The chunk's line range is as long as its content. *)
Definition range_matches_content (c : CodeChunk.t) : Prop :=
  CodeChunk.line_end c
  = CodeChunk.line_start c + Z.of_nat (length (Props.lines_of c)) - 1.


End ChunkProps.

(** * Properties *)

(** ** The complexity score (tree_sitter_parser.py, [_calculate_complexity]) *)

Section Complexity.
Local Open Scope Q_scope.

Lemma inject_nat_succ (n : nat) :
  inject_Z (Z.of_nat (S n)) == 1 + inject_Z (Z.of_nat n).
Proof.
  rewrite Nat2Z.inj_succ. unfold Z.succ. rewrite inject_Z_plus. ring.
Qed.

Lemma inject_nat_add (a b : nat) :
  inject_Z (Z.of_nat (a + b)) == inject_Z (Z.of_nat a) + inject_Z (Z.of_nat b).
Proof. rewrite Nat2Z.inj_add, inject_Z_plus. reflexivity. Qed.

(** The inner loop adds one half per keyword found. *)
Lemma keyword_loop (found : string -> bool) (keywords : list string) :
  forall score : Q,
    fold_left (fun (s : Q) (k : string) => if found k then s + (1 # 2) else s)
              keywords score
    == score + (1 # 2) * inject_Z (Z.of_nat (length (List.filter found keywords))).
Proof.
  induction keywords as [|k ks IH]; intros score; simpl.
  - ring.
  - rewrite IH. destruct (found k); simpl length.
    + rewrite inject_nat_succ. ring.
    + ring.
Qed.

Lemma score_line_hits (score : Q) (line : string) :
  Parser.score_line score line
  == score + (1 # 2) * inject_Z (Z.of_nat (length (Props.keywords_in line))).
Proof. unfold Parser.score_line, Props.keywords_in. apply keyword_loop. Qed.

Lemma score_lines_hits (lines : list string) :
  forall score : Q,
    fold_left Parser.score_line lines score
    == score
       + (1 # 2) * inject_Z (Z.of_nat
                     (list_sum (map (fun l => length (Props.keywords_in l)) lines))).
Proof.
  induction lines as [|l ls IH]; intros score; simpl.
  - ring.
  - rewrite IH, score_line_hits, inject_nat_add. ring.
Qed.

Lemma line_count_pos (content : string) : 0 < Props.line_count content.
Proof.
  unfold Props.line_count.
  change 0 with (inject_Z 0). rewrite <- Zlt_Qlt. lia.
Qed.

Lemma hits_nonneg (n : nat) : 0 <= inject_Z (Z.of_nat n).
Proof. change 0 with (inject_Z 0). rewrite <- Zle_Qle. lia. Qed.

End Complexity.

(** C9 (as amended).  [_calculate_complexity] starts at 1, adds one half
    for every pair of a line and a keyword of the fixed set such that the
    keyword occurs in the stripped, lowercased line (a line with several
    keywords counts once per keyword), divides by the number of lines and
    takes the minimum with 10; the score is positive and at most 10. *)
Theorem calculate_complexity_counts_keywords (content : string) :
  (Parser._calculate_complexity content
   == Qmin ((1 + (1 # 2) * inject_Z (Z.of_nat (Props.keyword_hits content)))
            / Props.line_count content) 10
   /\ 0 < Parser._calculate_complexity content
   /\ Parser._calculate_complexity content <= 10)%Q.
Proof.
  assert (E : (Parser._calculate_complexity content
               == Qmin ((1 + (1 # 2) * inject_Z (Z.of_nat (Props.keyword_hits content)))
                        / Props.line_count content) 10)%Q).
  { unfold Parser._calculate_complexity, Props.keyword_hits, Props.line_count.
    rewrite score_lines_hits. reflexivity. }
  split; [exact E|]. split.
  - rewrite E. apply Q.min_glb_lt; [|reflexivity].
    apply Qlt_shift_div_l; [apply line_count_pos|].
    rewrite Qmult_0_l.
    pose proof (hits_nonneg (Props.keyword_hits content)) as H.
    apply Qlt_le_trans with (y := 1%Q); [reflexivity|].
    rewrite <- (Qplus_0_r 1) at 1. apply Qplus_le_r.
    apply Qmult_le_0_compat; [discriminate | exact H].
  - apply Q.le_min_r.
Qed.

(** C9 (counterexample).  On the one-line text [if x: return y] the code
    gives 2 (two keywords on the line), the design document's rule gives
    3/2 (one line with a keyword). *)
Lemma calculate_complexity_not_per_line :
  (Parser._calculate_complexity "if x: return y" == 2
   /\ Props.complexity_per_line "if x: return y" == 3 # 2
   /\ ~ Parser._calculate_complexity "if x: return y"
        == Props.complexity_per_line "if x: return y")%Q.
Proof. repeat split; try reflexivity. intros H. vm_compute in H. discriminate. Qed.

(** ** Language detection (tree_sitter_parser.py, [_detect_language]) *)

Section DetectLanguage.

(** A change of characters that keeps the path separator and the dot. *)
Variable f : ascii -> ascii.
Hypothesis f_slash : Props.keeps f "/".
Hypothesis f_dot : Props.keeps f ".".

Lemma split_map_chars (sep : ascii) (s : string) :
  Props.keeps f sep ->
  PyStr.split sep (PyStr.map_chars f s) = map (PyStr.map_chars f) (PyStr.split sep s).
Proof.
  intros Hsep. induction s as [|c s IH]; simpl; [reflexivity|].
  rewrite Hsep, IH. destruct (Ascii.eqb c sep); simpl; [reflexivity|].
  destruct (PyStr.split sep s); reflexivity.
Qed.

Lemma map_chars_eqb_empty (s : string) :
  String.eqb (PyStr.map_chars f s) "" = String.eqb s "".
Proof. destruct s; reflexivity. Qed.

Lemma map_chars_eqb_dot (s : string) :
  String.eqb (PyStr.map_chars f s) "." = String.eqb s ".".
Proof.
  destruct s as [|c s]; [reflexivity|]. simpl.
  rewrite f_dot. destruct (Ascii.eqb c "."); [|reflexivity].
  destruct s; reflexivity.
Qed.

Lemma is_component_map_chars (s : string) :
  Parser.is_component (PyStr.map_chars f s) = Parser.is_component s.
Proof.
  unfold Parser.is_component.
  now rewrite map_chars_eqb_empty, map_chars_eqb_dot.
Qed.

Lemma filter_components_map (l : list string) :
  List.filter Parser.is_component (map (PyStr.map_chars f) l)
  = map (PyStr.map_chars f) (List.filter Parser.is_component l).
Proof.
  induction l as [|x l IH]; simpl; [reflexivity|].
  rewrite is_component_map_chars, IH.
  destruct (Parser.is_component x); reflexivity.
Qed.

Lemma last_map_chars (l : list string) :
  List.last (map (PyStr.map_chars f) l) "" = PyStr.map_chars f (List.last l "").
Proof.
  induction l as [|x l IH]; simpl; [reflexivity|].
  destruct l; [reflexivity|]. exact IH.
Qed.

Lemma path_name_map_chars (p : string) :
  Parser.path_name (PyStr.map_chars f p) = PyStr.map_chars f (Parser.path_name p).
Proof.
  unfold Parser.path_name.
  now rewrite split_map_chars, filter_components_map, last_map_chars.
Qed.

Lemma rfind_map_chars (s : string) :
  PyStr.rfind "." (PyStr.map_chars f s) = PyStr.rfind "." s.
Proof.
  induction s as [|c s IH]; simpl; [reflexivity|].
  now rewrite IH, f_dot.
Qed.

Lemma len_map_chars (s : string) :
  PyStr.len (PyStr.map_chars f s) = PyStr.len s.
Proof. induction s; simpl; [reflexivity|]. unfold PyStr.len in *. simpl. congruence. Qed.

Lemma drop_map_chars (i : nat) :
  forall s, PyStr.drop i (PyStr.map_chars f s) = PyStr.map_chars f (PyStr.drop i s).
Proof. induction i as [|i IH]; intros [|c s]; simpl; auto. Qed.

Lemma name_suffix_map_chars (n : string) :
  Parser.name_suffix (PyStr.map_chars f n) = PyStr.map_chars f (Parser.name_suffix n).
Proof.
  unfold Parser.name_suffix.
  rewrite rfind_map_chars, len_map_chars.
  destruct (PyStr.rfind "." n) as [i|]; [|reflexivity].
  rewrite drop_map_chars.
  destruct ((0 <? i) && (i <? PyStr.len n - 1))%nat; reflexivity.
Qed.

Lemma path_suffix_map_chars (p : string) :
  Parser.path_suffix (PyStr.map_chars f p) = PyStr.map_chars f (Parser.path_suffix p).
Proof.
  unfold Parser.path_suffix.
  now rewrite path_name_map_chars, name_suffix_map_chars.
Qed.

End DetectLanguage.

Lemma all_chars (P : ascii -> Prop) :
  (forall b0 b1 b2 b3 b4 b5 b6 b7, P (Ascii b0 b1 b2 b3 b4 b5 b6 b7)) ->
  forall c, P c.
Proof. intros H [b0 b1 b2 b3 b4 b5 b6 b7]. apply H. Qed.

Ltac by_chars :=
  apply all_chars;
  intros [] [] [] [] [] [] [] []; vm_compute; reflexivity.

Lemma lower_keeps_slash : Props.keeps PyStr.lower_char "/".
Proof. unfold Props.keeps. by_chars. Qed.

Lemma lower_keeps_dot : Props.keeps PyStr.lower_char ".".
Proof. unfold Props.keeps. by_chars. Qed.

Lemma lower_upper_char : forall c, PyStr.lower_char (PyStr.upper_char c) = PyStr.lower_char c.
Proof. by_chars. Qed.

Lemma lower_lower_char : forall c, PyStr.lower_char (PyStr.lower_char c) = PyStr.lower_char c.
Proof. by_chars. Qed.

Lemma lower_upper (s : string) : PyStr.lower (PyStr.upper s) = PyStr.lower s.
Proof.
  induction s as [|c s IH]; simpl; [reflexivity|].
  unfold PyStr.lower, PyStr.upper in *. simpl. now rewrite lower_upper_char, IH.
Qed.

Lemma lower_lower (s : string) : PyStr.lower (PyStr.lower s) = PyStr.lower s.
Proof.
  induction s as [|c s IH]; simpl; [reflexivity|].
  unfold PyStr.lower in *. simpl. now rewrite lower_lower_char, IH.
Qed.

Lemma lower_append (a b : string) :
  PyStr.lower (a ++ b) = (PyStr.lower a ++ PyStr.lower b)%string.
Proof.
  induction a as [|c a IH]; simpl; [reflexivity|].
  unfold PyStr.lower in *. simpl. now rewrite IH.
Qed.

(** The language depends on the path only up to the case of its letters. *)
Lemma detect_language_lower (p : string) :
  Parser._detect_language (PyStr.lower p) = Parser._detect_language p.
Proof.
  unfold Parser._detect_language, PyStr.lower.
  rewrite (path_suffix_map_chars _ lower_keeps_slash lower_keeps_dot).
  fold (PyStr.lower (Parser.path_suffix p)).
  fold (PyStr.lower (PyStr.lower (Parser.path_suffix p))).
  now rewrite lower_lower.
Qed.

Lemma lookup_extension_none (extension : string)
    (configs : list (string * list string)) :
  (forall lang exts, In (lang, exts) configs -> ~ In extension exts) ->
  Parser.lookup_extension extension configs = None.
Proof.
  induction configs as [|[lang exts] rest IH]; intros H; simpl; [reflexivity|].
  destruct (Parser.mem extension exts) eqn:E.
  - exfalso. unfold Parser.mem in E. apply existsb_exists in E.
    destruct E as [x [Hx Ex]]. apply String.eqb_eq in Ex. subst x.
    exact (H lang exts (or_introl eq_refl) Hx).
  - apply IH. intros l e Hin. apply (H l e). now right.
Qed.

(** C10.  [_detect_language] looks the lowercased suffix of the path up in
    the extension table, so (1) a path with its extension in capitals is
    given the same language as the path with the extension in small
    letters, and (2) a path whose lowercased suffix is in no language's
    extension list has no language, and [parse_file] returns no chunk for
    it, whatever the file holds. *)
Theorem detect_language_ignores_case
    (read_file : string -> option string) (has_parser : string -> bool)
    (tree_sitter fallback : string -> string -> string -> Z -> option (list CodeChunk.t))
    (stem ext file_path : string) (max_chunk_size : Z) :
  Parser._detect_language (stem ++ "." ++ PyStr.upper ext)
  = Parser._detect_language (stem ++ "." ++ PyStr.lower ext)
  /\ ((forall lang exts, In (lang, exts) Parser.LANGUAGE_CONFIGS ->
         ~ In (PyStr.lower (Parser.path_suffix file_path)) exts) ->
      Parser._detect_language file_path = None
      /\ Parser.parse_file read_file has_parser tree_sitter fallback
           file_path max_chunk_size = []).
Proof.
  split.
  - rewrite <- (detect_language_lower (stem ++ "." ++ PyStr.upper ext)).
    rewrite <- (detect_language_lower (stem ++ "." ++ PyStr.lower ext)).
    rewrite !lower_append, lower_upper, lower_lower. reflexivity.
  - intros H.
    assert (E : Parser._detect_language file_path = None).
    { unfold Parser._detect_language. now apply lookup_extension_none. }
    split; [exact E|]. unfold Parser.parse_file. now rewrite E.
Qed.

Lemma detect_language_ignores_case_witness :
  Parser._detect_language "src/Main.PY" = Some "python"
  /\ Parser._detect_language "src/Main.PY" = Parser._detect_language "src/Main.py"
  /\ Parser._detect_language "notes/README.TXT" = None
  /\ Parser.parse_file (fun _ => Some "def f(): pass") (fun _ => false)
       (fun _ _ _ _ => None) (fun _ _ _ _ => None) "notes/README.TXT" 500 = [].
Proof.
  pose proof (detect_language_ignores_case
                (fun _ => Some "def f(): pass") (fun _ => false)
                (fun _ _ _ _ => None) (fun _ _ _ _ => None)
                "src/Main" "py" "notes/README.TXT" 500) as [Hcase Hnone].
  split; [reflexivity|]. split; [exact Hcase|].
  apply Hnone. intros lang exts Hin Hext.
  vm_compute in Hin, Hext.
  repeat (destruct Hin as [Hin|Hin];
          [inversion Hin; subst; clear Hin;
           repeat (destruct Hext as [Hext|Hext]; [discriminate Hext|]);
           exact Hext|]).
  exact Hin.
Defined.

(** ** Splitting text into lines and joining it back *)

Section SplitJoin.
Variable sep : ascii.
Let seps : string := String sep EmptyString.

Lemma split_nonempty (s : string) : PyStr.split sep s <> [].
Proof.
  destruct s as [|c s]; simpl; [discriminate|].
  destruct (Ascii.eqb c sep); [discriminate|].
  destruct (PyStr.split sep s); discriminate.
Qed.

(** [sep.join(s.split(sep)) == s] *)
Lemma join_split (s : string) : PyStr.join seps (PyStr.split sep s) = s.
Proof.
  induction s as [|c s IH]; [reflexivity|]. simpl PyStr.split.
  destruct (Ascii.eqb_spec c sep) as [->|Hc].
  - pose proof (split_nonempty s) as Hne.
    destruct (PyStr.split sep s) as [|w ws] eqn:E; [contradiction|].
    change (PyStr.join seps ("" :: w :: ws))
      with ("" ++ seps ++ PyStr.join seps (w :: ws))%string.
    rewrite IH. reflexivity.
  - pose proof (split_nonempty s) as Hne.
    destruct (PyStr.split sep s) as [|w ws] eqn:E; [contradiction|].
    destruct ws as [|w' ws]; simpl in *; now rewrite <- IH.
Qed.

Lemma join_cons (x : string) (l : list string) :
  l <> [] -> PyStr.join seps (x :: l) = (x ++ seps ++ PyStr.join seps l)%string.
Proof. destruct l; [contradiction|reflexivity]. Qed.

Lemma append_cons (c : ascii) (a b : string) :
  (String c a ++ b)%string = String c (a ++ b).
Proof. reflexivity. Qed.

Lemma append_assoc (a b c : string) : ((a ++ b) ++ c = a ++ (b ++ c))%string.
Proof.
  induction a as [|x a IH]; [reflexivity|].
  now rewrite !append_cons, IH.
Qed.

Lemma join_app (l1 l2 : list string) :
  l1 <> [] -> l2 <> [] ->
  PyStr.join seps (l1 ++ l2)
  = (PyStr.join seps l1 ++ seps ++ PyStr.join seps l2)%string.
Proof.
  intros H1 H2. induction l1 as [|x l1 IH]; [contradiction|].
  destruct l1 as [|y l1].
  - simpl app. now rewrite join_cons.
  - change ((x :: y :: l1) ++ l2) with (x :: ((y :: l1) ++ l2)).
    rewrite join_cons by discriminate.
    rewrite IH by discriminate.
    rewrite (join_cons x (y :: l1)) by discriminate.
    now rewrite !append_assoc.
Qed.

(** Joining the joined groups is joining all their lines. *)
Lemma join_groups (groups : list (list string)) :
  Forall (fun g => g <> []) groups ->
  PyStr.join seps (map (PyStr.join seps) groups) = PyStr.join seps (concat groups).
Proof.
  induction 1 as [|g rest Hg Hrest IH]; [reflexivity|].
  destruct rest as [|g' rest].
  - simpl. now rewrite app_nil_r.
  - simpl map. rewrite join_cons by discriminate.
    change (map (PyStr.join seps) (g' :: rest))
      with (PyStr.join seps g' :: map (PyStr.join seps) rest) in IH.
    rewrite IH.
    change (concat (g :: g' :: rest)) with (g ++ concat (g' :: rest)).
    rewrite (join_app g (concat (g' :: rest))); [reflexivity|exact Hg|].
    inversion Hrest; subst. destruct g'; [contradiction|discriminate].
Qed.

Lemma split_free (s : string) :
  PyStr.has_char sep s = false -> PyStr.split sep s = [s].
Proof.
  induction s as [|c s IH]; simpl; [reflexivity|].
  destruct (Ascii.eqb c sep); simpl; [discriminate|].
  intros H. now rewrite IH.
Qed.

Lemma split_free_app (a b : string) :
  PyStr.has_char sep a = false ->
  PyStr.split sep (a ++ seps ++ b) = a :: PyStr.split sep b.
Proof.
  induction a as [|c a IH].
  - intros _. change ("" ++ seps ++ b)%string with (String sep b).
    simpl. now rewrite Ascii.eqb_refl.
  - rewrite append_cons. simpl.
    destruct (Ascii.eqb c sep); simpl; [discriminate|].
    intros H. now rewrite (IH H).
Qed.

(** The pieces of a split hold no separator. *)
Lemma split_pieces_free (s : string) :
  Forall (fun l => PyStr.has_char sep l = false) (PyStr.split sep s).
Proof.
  induction s as [|c s IH]; simpl.
  - repeat constructor.
  - destruct (Ascii.eqb c sep) eqn:E.
    + constructor; [reflexivity|exact IH].
    + destruct (PyStr.split sep s) as [|w ws]; [repeat constructor; simpl; now rewrite E|].
      inversion IH; subst. constructor; [simpl; now rewrite E|assumption].
Qed.

(** [sep.join(l).split(sep) == l] for pieces without separator. *)
Lemma split_join (l : list string) :
  l <> [] -> Forall (fun x => PyStr.has_char sep x = false) l ->
  PyStr.split sep (PyStr.join seps l) = l.
Proof.
  intros Hne H. induction H as [|x l Hx Hl IH]; [contradiction|].
  destruct l as [|y l].
  - simpl. now apply split_free.
  - rewrite join_cons by discriminate.
    rewrite split_free_app by exact Hx.
    now rewrite IH by discriminate.
Qed.

(** The length of a text is that of its pieces plus one per separator. *)
Lemma split_sizes (s : string) :
  (Props.lines_size (PyStr.split sep s) + (length (PyStr.split sep s) - 1)
   = PyStr.len s)%nat.
Proof.
  unfold Props.lines_size, PyStr.len.
  induction s as [|c s IH]; [reflexivity|]. simpl PyStr.split.
  pose proof (split_nonempty s) as Hne.
  destruct (PyStr.split sep s) as [|w ws]; [contradiction|].
  destruct (Ascii.eqb c sep); simpl in *; lia.
Qed.

End SplitJoin.

(** ** Splitting a chunk (tree_sitter_parser.py, [_split_chunk]) *)

Section SplitChunk.
Variable chunk : CodeChunk.t.
Variable max_size : Z.
Variable n_lines : nat.

Lemma built_app (subs1 : list CodeChunk.t) :
  forall first groups1 subs2 groups2,
    Props.built first subs1 groups1 ->
    Props.built (first + Z.of_nat (length (concat groups1))) subs2 groups2 ->
    Props.built first (subs1 ++ subs2) (groups1 ++ groups2).
Proof.
  induction subs1 as [|s subs1 IH]; intros first [|g groups1] subs2 groups2 H1 H2;
    simpl in H1; try contradiction.
  - simpl in H2. now rewrite Z.add_0_r in H2.
  - destruct H1 as (Hg & Hc & Hs & He & Hrest).
    simpl. repeat split; try assumption.
    apply IH; [exact Hrest|].
    simpl in H2. rewrite length_app, Nat2Z.inj_add, Z.add_assoc in H2. exact H2.
Qed.

Lemma lines_size_app (a b : list string) :
  Props.lines_size (a ++ b) = (Props.lines_size a + Props.lines_size b)%nat.
Proof.
  unfold Props.lines_size. rewrite map_app.
  induction (map PyStr.len a); simpl; lia.
Qed.

Lemma lines_size_single (l : string) : Props.lines_size [l] = PyStr.len l.
Proof. unfold Props.lines_size. simpl. lia. Qed.

Lemma split_step_inv (seen : list string) (st : Parser.split_state)
    (groups : list (list string)) (line : string) :
  Props.loop_inv chunk max_size seen st groups ->
  exists groups',
    Props.loop_inv chunk max_size (seen ++ [line])
      (Parser.split_step chunk max_size n_lines (length seen) line st) groups'.
Proof.
  intros (Hb & Hl & Hs & Hz & Hf & Hw & Hc).
  unfold Parser.split_step.
  destruct ((Parser.current_size st + Z.of_nat (PyStr.len line) >? max_size)
            && negb (length (Parser.current_content st) =? 0)%nat) eqn:E.
  - (* the current group is flushed *)
    apply andb_prop in E. destruct E as [_ Hne].
    apply negb_true_iff, Nat.eqb_neq in Hne.
    assert (Hcur : Parser.current_content st <> []) by (now destruct (Parser.current_content st)).
    exists (groups ++ [Parser.current_content st]).
    unfold Props.loop_inv; simpl.
    rewrite concat_app; simpl; rewrite app_nil_r.
    repeat split.
    + apply built_app; [exact Hb|].
      simpl. repeat split; try assumption; lia.
    + now rewrite Hl.
    + rewrite Hl. subst seen. reflexivity.
    + now rewrite lines_size_single.
    + discriminate.
    + apply Forall_app. split; [exact Hw|]. constructor; [|constructor].
      unfold Props.within. destruct Hc as [Hc|Hc]; [left; lia|now right].
    + left. lia.
  - (* the line joins the current group *)
    exists groups. unfold Props.loop_inv; simpl.
    repeat split.
    + exact Hb.
    + now rewrite app_assoc, Hl.
    + exact Hs.
    + rewrite lines_size_app, lines_size_single, Hz. lia.
    + intros H. now apply app_eq_nil in H as [_ H].
    + exact Hw.
    + apply andb_false_iff in E. destruct E as [E|E].
      * right. rewrite lines_size_app, lines_size_single.
        rewrite Z.gtb_ltb in E. apply Z.ltb_ge in E. lia.
      * left. apply negb_false_iff, Nat.eqb_eq in E.
        rewrite length_app, E. simpl. lia.
Qed.

Lemma split_loop_inv (rest : list string) :
  forall seen st groups,
    Props.loop_inv chunk max_size seen st groups ->
    exists groups',
      Props.loop_inv chunk max_size (seen ++ rest)
        (Parser.split_loop chunk max_size n_lines (length seen) rest st) groups'.
Proof.
  induction rest as [|line rest IH]; intros seen st groups H; simpl.
  - exists groups. now rewrite app_nil_r.
  - destruct (split_step_inv seen st groups line H) as [groups1 H1].
    destruct (IH (seen ++ [line]) _ groups1 H1) as [groups2 H2].
    exists groups2. rewrite <- app_assoc in H2. simpl in H2.
    rewrite length_app in H2. simpl in H2.
    now replace (S (length seen)) with (length seen + 1)%nat by lia.
Qed.

End SplitChunk.

(** The chunks of [_split_chunk] are built from groups of lines that, put
    end to end, are the lines of the content. *)
Lemma split_chunk_built (chunk : CodeChunk.t) (max_size : Z) :
  exists groups,
    groups <> []
    /\ Props.built (CodeChunk.line_start chunk)
                   (Parser._split_chunk chunk max_size) groups
    /\ concat groups = Props.lines_of chunk
    /\ Forall (Props.within max_size) groups.
Proof.
  unfold Parser._split_chunk.
  set (lines := PyStr.split PyStr.newline (CodeChunk.content chunk)).
  set (st0 := Parser.SplitState [] [] 0 (CodeChunk.line_start chunk)).
  assert (H0 : Props.loop_inv chunk max_size [] st0 []).
  { unfold Props.loop_inv, st0; simpl. repeat split; auto; try lia. }
  destruct (split_loop_inv chunk max_size (length lines) lines [] st0 [] H0)
    as [groups (Hb & Hl & Hs & Hz & Hf & Hw & Hc)].
  simpl in *. set (st := Parser.split_loop _ _ _ _ _ _) in *.
  assert (Hcur : Parser.current_content st <> []).
  { intros E. apply Hf in E. now apply (split_nonempty PyStr.newline (CodeChunk.content chunk)). }
  assert (E : negb (length (Parser.current_content st) =? 0)%nat = true).
  { apply negb_true_iff, Nat.eqb_neq. now destruct (Parser.current_content st). }
  rewrite E. exists (groups ++ [Parser.current_content st]).
  split; [now destruct groups|]. split; [|split].
  - apply built_app; [exact Hb|]. simpl. repeat split; try assumption; lia.
  - rewrite concat_app. simpl. now rewrite app_nil_r.
  - apply Forall_app. split; [exact Hw|]. constructor; [|constructor].
    unfold Props.within.
    destruct Hc as [Hc|Hc]; [left|now right].
    destruct (Parser.current_content st); [contradiction|simpl in *; lia].
Qed.

Lemma built_contents (subs : list CodeChunk.t) :
  forall first groups,
    Props.built first subs groups ->
    map CodeChunk.content subs = map (PyStr.join PyStr.nl) groups
    /\ Forall (fun g => g <> []) groups.
Proof.
  induction subs as [|s subs IH]; intros first [|g groups] H; simpl in H;
    try contradiction.
  - split; [reflexivity|constructor].
  - destruct H as (Hg & Hc & _ & _ & Hrest).
    destruct (IH _ _ Hrest) as [IH1 IH2].
    split; [simpl; now rewrite Hc, IH1|now constructor].
Qed.

Lemma built_lines (subs : list CodeChunk.t) :
  forall first groups,
    Props.built first subs groups ->
    Forall (fun l => PyStr.has_char PyStr.newline l = false) (concat groups) ->
    map Props.lines_of subs = groups.
Proof.
  induction subs as [|s subs IH]; intros first [|g groups] H Hfree; simpl in H;
    try contradiction; [reflexivity|].
  destruct H as (Hg & Hc & _ & _ & Hrest).
  simpl in Hfree. apply Forall_app in Hfree. destruct Hfree as [Hfg Hfrest].
  simpl. rewrite (IH _ _ Hrest Hfrest). f_equal.
  unfold Props.lines_of. rewrite Hc. now apply split_join.
Qed.

Lemma built_tiles (subs : list CodeChunk.t) :
  forall first groups,
    Props.built first subs groups ->
    map Props.lines_of subs = groups ->
    Props.tiles first subs (first + Z.of_nat (length (concat groups)) - 1).
Proof.
  induction subs as [|s subs IH]; intros first [|g groups] H Hl; simpl in H;
    try contradiction.
  - simpl. lia.
  - destruct H as (Hg & Hc & Hs & He & Hrest).
    simpl in Hl. injection Hl as Hls Hl.
    simpl. rewrite Hls, Hs. repeat split; [exact He|].
    rewrite He, length_app, Nat2Z.inj_add.
    replace (first + Z.of_nat (length g) - 1 + 1) with (first + Z.of_nat (length g)) by lia.
    replace (first + (Z.of_nat (length g) + Z.of_nat (length (concat groups))) - 1)
      with (first + Z.of_nat (length g) + Z.of_nat (length (concat groups)) - 1) by lia.
    now apply IH.
Qed.

(** C2 (as amended).  Every chunk returned by [_split_large_chunks] either
    is a single line, which is never split however long, or has lines
    whose lengths add up to at most [max_size]; the newlines between the
    lines are not counted. *)
Theorem split_large_chunks_bounds_lines (chunks : list CodeChunk.t) (max_size : Z) :
  Forall (fun r => Props.within max_size (Props.lines_of r))
         (Parser._split_large_chunks chunks max_size).
Proof.
  induction chunks as [|chunk rest IH]; simpl; [constructor|].
  apply Forall_app. split; [|exact IH].
  destruct (Z.of_nat (PyStr.len (CodeChunk.content chunk)) <=? max_size) eqn:E.
  - constructor; [|constructor]. right.
    apply Z.leb_le in E.
    pose proof (split_sizes PyStr.newline (CodeChunk.content chunk)) as H.
    unfold Props.lines_of. lia.
  - destruct (split_chunk_built chunk max_size) as (groups & _ & Hb & Hl & Hw).
    assert (Hfree : Forall (fun l => PyStr.has_char PyStr.newline l = false) (concat groups)).
    { rewrite Hl. apply split_pieces_free. }
    pose proof (built_lines _ _ _ Hb Hfree) as Hlines.
    rewrite <- Hlines in Hw.
    exact (proj1 (List.Forall_map Props.lines_of (Props.within max_size) _) Hw).
Qed.

(** C2 (counterexample).  A chunk made of the single line [abc] passes
    through [_split_large_chunks] with limit 2 unchanged in content, three
    characters long. *)
Lemma split_large_chunks_keeps_long_line :
  let chunk :=
    CodeChunk.Build "a.py:0:0:function" "abc"
      ChunkType.FUNCTION "python" "a.py" 1 1 None None None None 1 [] None in
  map CodeChunk.content (Parser._split_large_chunks [chunk] 2) = ["abc"]
  /\ ~ Forall (fun r => Z.of_nat (PyStr.len (CodeChunk.content r)) <= 2)
              (Parser._split_large_chunks [chunk] 2).
Proof.
  split; [reflexivity|].
  intros H. vm_compute in H. inversion H as [|? ? Hle _]. apply Hle. reflexivity.
Qed.

(** ** The vector store (qdrant_client.py) *)

Section VectorStoreProps.
Variable Embedding Value : Type.
Variable client_upsert :
  nat -> list (VectorStore.PointStruct Embedding) -> outcome VectorStore.UpdateStatus.
Variable client_search :
  VectorStore.SearchRequest Embedding Value
  -> outcome (list VectorStore.ScoredPoint).
Variable client_delete : string -> outcome VectorStore.UpdateStatus.
Variable uuid4 utcnow : nat -> string.

(** The loop over the batches succeeds exactly when every upsert returns
    [COMPLETED]. *)
Lemma upsert_batches_true (batches : list (list (VectorStore.PointStruct Embedding))) :
  forall k,
    VectorStore.upsert_batches Embedding client_upsert k batches = true
    <-> (forall j batch, nth_error batches j = Some batch ->
           client_upsert (k + j)%nat batch = Return VectorStore.COMPLETED).
Proof.
  induction batches as [|b rest IH]; intros k; simpl.
  - split; [intros _ [|j] batch H; discriminate H|reflexivity].
  - split.
    + intros H [|j] batch Hj; simpl in Hj.
      * injection Hj as <-. rewrite Nat.add_0_r.
        destruct (client_upsert k b) as [[]|]; try discriminate; reflexivity.
      * destruct (client_upsert k b) as [[]|]; try discriminate.
        apply IH with (j := j) (batch := batch) in H; [|exact Hj].
        now replace (k + S j)%nat with (S k + j)%nat by lia.
    + intros H. pose proof (H 0%nat b eq_refl) as H0.
      rewrite Nat.add_0_r in H0. rewrite H0. apply IH.
      intros j batch Hj. specialize (H (S j) batch Hj).
      now replace (k + S j)%nat with (S k + j)%nat in H by lia.
Qed.

End VectorStoreProps.

(** C8 (as amended).  No vector-store operation raises because the server
    cannot be reached.  The only exception is the [RuntimeError] of a store
    whose client or collection is not set up.  On a store that is set up:
    [search_similar] returns the empty list when the search call raises,
    and also when building the filter raises; [store_chunks] returns a
    boolean, [True] exactly when every batch's upsert returns [COMPLETED],
    so [False] as soon as one raises; [delete_by_file_path] returns [False]
    when the delete call raises, and also when building its condition
    raises. *)
Theorem store_failures_are_swallowed
    (Embedding Value : Type)
    (client_upsert :
       nat -> list (VectorStore.PointStruct Embedding) -> outcome VectorStore.UpdateStatus)
    (client_search :
       VectorStore.SearchRequest Embedding Value -> outcome (list VectorStore.ScoredPoint))
    (client_delete : string -> outcome VectorStore.UpdateStatus)
    (Match : forall A : Type, A -> outcome A)
    (uuid4 utcnow : nat -> string)
    (s : VectorStore.store) (query : Embedding) (limit : Z) (threshold : Q)
    (filters : option (list (string * VectorStore.filter_value Value)))
    (items : list (CodeChunk.t * Embedding)) (file_path : string) :
  let search :=
    VectorStore.search_similar Embedding Value client_search Match s query limit
                               threshold filters in
  let store := VectorStore.store_chunks Embedding client_upsert uuid4 utcnow s items in
  let delete := VectorStore.delete_by_file_path client_delete Match s file_path in
  (forall e, search = Raise e \/ store = Raise e \/ delete = Raise e ->
     e = VectorStore.not_ready_error /\ VectorStore.not_ready s = true)
  /\ (VectorStore.not_ready s = false ->
      ((raises (VectorStore.build_filter Value Match filters) ->
        search = Return [])
       /\ (forall filter_conditions,
              VectorStore.build_filter Value Match filters
              = Return filter_conditions ->
              raises (client_search
                        (VectorStore.MkSearch Embedding Value query
                           filter_conditions limit threshold)) ->
              search = Return []))
      /\ (exists ok, store = Return ok
          /\ (ok = true <->
              forall j batch,
                nth_error (PyList.batches 100
                             (VectorStore.make_points Embedding uuid4 utcnow 0 items)) j
                = Some batch ->
                client_upsert j batch = Return VectorStore.COMPLETED))
      /\ ((raises (Match string file_path) -> delete = Return false)
          /\ (forall path,
                 Match string file_path = Return path ->
                 raises (client_delete path) -> delete = Return false))).
Proof.
  intros search store delete.
  unfold search, store, delete, VectorStore.search_similar,
    VectorStore.store_chunks, VectorStore.delete_by_file_path.
  destruct (VectorStore.not_ready s) eqn:Hready.
  - split.
    + intros e [H|[H|H]]; injection H as <-; auto.
    + discriminate.
  - split.
    + intros e [H|[H|H]].
      * destruct (VectorStore.build_filter Value Match filters);
          [destruct (client_search _)|]; discriminate H.
      * destruct items; discriminate H.
      * destruct (Match string file_path) as [path|]; [|discriminate H].
        destruct (client_delete path) as [[]|]; discriminate H.
    + intros _. split; [|split].
      * split.
        -- intros [e ->]. reflexivity.
        -- intros filter_conditions -> [e ->]. reflexivity.
      * destruct items as [|item items].
        -- exists true. split; [reflexivity|].
           split; [intros _ [|j] batch H; discriminate H|reflexivity].
        -- eexists. split; [reflexivity|].
           apply (upsert_batches_true Embedding client_upsert _ 0%nat).
      * split.
        -- intros [e ->]. reflexivity.
        -- intros path -> [e ->]. reflexivity.
Qed.

(** C8 (counterexample).  With a server that refuses every call, the three
    operations return an empty list and [False]; nothing is raised. *)
Lemma store_unreachable_returns_empty :
  let refused {A : Type} : outcome A :=
    Raise (Exception "ConnectionError" "connection refused") in
  let matched (A : Type) (v : A) : outcome A := Return v in
  let s := VectorStore.MkStore true true in
  let c := CodeChunk.Build "a.py:0:0:function" "pass" ChunkType.FUNCTION
             "python" "a.py" 1 1 None None None None 1 [] None in
  VectorStore.search_similar nat string (fun _ => refused) matched s 0%nat 10
    (7 # 10) None
  = Return []
  /\ VectorStore.store_chunks nat (fun _ _ => refused) (fun _ => "id") (fun _ => "now")
       s [(c, 0%nat)] = Return false
  /\ VectorStore.delete_by_file_path (fun _ => refused) matched s "a.py"
     = Return false
  /\ ~ raises (VectorStore.search_similar nat string (fun _ => refused) matched s
                 0%nat 10 (7 # 10) None).
Proof.
  repeat split; try reflexivity. intros [e H]. discriminate H.
Qed.

Lemma store_failures_are_swallowed_witness :
  VectorStore.search_similar nat string
    (fun _ => Raise (Exception "ConnectionError" "connection refused"))
    (fun A v => Return v)
    (VectorStore.MkStore true true) 0%nat 10 (7 # 10) None
  = Return [].
Proof.
  pose proof (store_failures_are_swallowed nat string
                (fun _ _ => Return VectorStore.COMPLETED)
                (fun _ => Raise (Exception "ConnectionError" "connection refused"))
                (fun _ => Return VectorStore.COMPLETED)
                (fun A v => Return v)
                (fun _ => "id") (fun _ => "now")
                (VectorStore.MkStore true true) 0%nat 10 (7 # 10) None [] "a.py")
    as [_ H].
  destruct (H eq_refl) as [[_ Hsearch] _].
  apply (Hsearch None eq_refl). eexists. reflexivity.
Defined.

(** ** Slicing a list into batches *)

Section Batches.
Context {A : Type}.

Lemma slices_concat (size : nat) (m : nat) :
  forall l : list A,
    (length l <= m * size)%nat ->
    concat (map (fun k => firstn size (skipn (k * size) l)) (seq 0 m)) = l.
Proof.
  induction m as [|m IH]; intros l Hl.
  - destruct l; [reflexivity|simpl in Hl; lia].
  - change (seq 0 (S m)) with (0%nat :: seq 1 m).
    rewrite <- seq_shift, map_cons, map_map. simpl concat.
    transitivity (firstn size l ++ skipn size l); [|apply firstn_skipn].
    f_equal.
    rewrite <- (IH (skipn size l)).
    + f_equal. apply map_ext. intros k. rewrite skipn_skipn.
      do 2 f_equal. simpl. lia.
    + rewrite length_skipn. simpl in Hl. lia.
Qed.

(** The batches, put end to end, are the list. *)
Lemma batches_concat (size : nat) (l : list A) :
  (0 < size)%nat -> concat (PyList.batches size l) = l.
Proof.
  intros Hsize. unfold PyList.batches, PyList.range_step. rewrite map_map.
  apply slices_concat.
  pose proof (Nat.div_mod_eq (length l + size - 1) size) as H.
  pose proof (Nat.mod_upper_bound (length l + size - 1) size) as H1.
  nia.
Qed.

Lemma concat_map_length {B : Type} (f : list A -> list B) (bs : list (list A)) :
  (forall b, length (f b) = length b) ->
  length (concat (map f bs)) = length (concat bs).
Proof.
  intros Hf. induction bs as [|b bs IH]; simpl; [reflexivity|].
  now rewrite !length_app, Hf, IH.
Qed.

End Batches.

(** ** The embedding service (sentence_transformer.py) *)

Section EmbeddingService.
Variable Embedding : Type.
Variable md5_hexdigest : string -> string.
Variable encode : list string -> list Embedding.

Abbreviation hash_of := (EmbeddingProps.hash_of md5_hexdigest).
Abbreviation hits := (EmbeddingProps.hits Embedding md5_hexdigest).
Abbreviation misses := (EmbeddingProps.misses Embedding md5_hexdigest).
Abbreviation cached_pairs := (EmbeddingProps.cached_pairs Embedding md5_hexdigest).
Abbreviation text_of := Embeddings._create_embedding_text.

Variable cache : gmap string Embedding.

(** The first loop sorts the chunks into cache hits and misses, each
    kept in input order. *)
Lemma scan_fold (chunks : list CodeChunk.t) :
  forall st,
    fold_left (Embeddings.scan_step Embedding md5_hexdigest cache) chunks st
    = Embeddings.Scan Embedding
        (Embeddings.texts_to_embed Embedding st
         ++ map text_of (misses cache chunks))
        (Embeddings.chunk_ids Embedding st
         ++ map (fun c => (CodeChunk.id c, hash_of c)) (misses cache chunks))
        (Embeddings.cached_embeddings Embedding st ++ cached_pairs cache chunks).
Proof.
  induction chunks as [|c chunks IH]; intros [texts ids cached]; simpl.
  - now rewrite !app_nil_r.
  - rewrite IH. unfold Embeddings.scan_step, EmbeddingProps.is_hit,
      EmbeddingProps.hash_of. simpl.
    destruct (cache !! _) as [e|]; simpl; now rewrite <- ?app_assoc.
Qed.

Lemma cached_pairs_ids (chunks : list CodeChunk.t) :
  Props.ids (cached_pairs cache chunks) = map CodeChunk.id (hits cache chunks).
Proof.
  unfold Props.ids.
  induction chunks as [|c chunks IH]; simpl; [reflexivity|].
  unfold EmbeddingProps.is_hit.
  destruct (cache !! hash_of c); simpl; now rewrite ?map_app, IH.
Qed.

(** The second loop appends one pair per zipped item and writes each
    embedding into the cache. *)
Lemma store_fold (items : list ((string * string) * Embedding)) :
  forall c acc,
    fold_left (Embeddings.store_step Embedding) items (c, acc)
    = (fold_left (fun m it => <[snd (fst it) := snd it]> m) items c,
       acc ++ map (fun it => (fst (fst it), snd it)) items).
Proof.
  induction items as [|[[id h] e] items IH]; intros c acc; simpl.
  - now rewrite app_nil_r.
  - rewrite IH. now rewrite <- app_assoc.
Qed.

Lemma zip_ids (ids : list (string * string)) :
  forall embs : list Embedding,
    length embs = length ids ->
    map (fun it : (string * string) * Embedding => fst (fst it)) (combine ids embs)
    = map fst ids.
Proof.
  induction ids as [|i ids IH]; intros [|e embs] H; simpl in *;
    try discriminate; [reflexivity|].
  f_equal. apply IH. lia.
Qed.

Lemma inserts_keep (items : list ((string * string) * Embedding)) :
  forall (c : gmap string Embedding) k,
    is_Some (c !! k) ->
    is_Some (fold_left (fun m it => <[snd (fst it) := snd it]> m) items c !! k).
Proof.
  induction items as [|[[id h] e] items IH]; intros c k H; simpl; [exact H|].
  apply IH. destruct (decide (h = k)) as [->|Hne].
  - rewrite lookup_insert_eq. eauto.
  - now rewrite lookup_insert_ne.
Qed.

Lemma inserts_add (items : list ((string * string) * Embedding)) :
  forall (c : gmap string Embedding) k,
    In k (map (fun it : (string * string) * Embedding => snd (fst it)) items) ->
    is_Some (fold_left (fun m it => <[snd (fst it) := snd it]> m) items c !! k).
Proof.
  induction items as [|[[id h] e] items IH]; intros c k H; simpl in *; [contradiction|].
  destruct H as [<-|H].
  - apply inserts_keep. rewrite lookup_insert_eq. eauto.
  - now apply IH.
Qed.

Lemma zip_hashes (ids : list (string * string)) :
  forall embs : list Embedding,
    length embs = length ids ->
    map (fun it : (string * string) * Embedding => snd (fst it)) (combine ids embs)
    = map snd ids.
Proof.
  induction ids as [|i ids IH]; intros [|e embs] H; simpl in *;
    try discriminate; [reflexivity|].
  f_equal. apply IH. lia.
Qed.

Lemma hits_misses_permutation (chunks : list CodeChunk.t) :
  Permutation (hits cache chunks ++ misses cache chunks) chunks.
Proof.
  induction chunks as [|c chunks IH]; simpl; [constructor|].
  destruct (EmbeddingProps.is_hit Embedding md5_hexdigest cache c); simpl.
  - now constructor.
  - rewrite <- Permutation_middle. now constructor.
Qed.

Hypothesis encode_length : forall batch, length (encode batch) = length batch.

(** What one call with an initialised model returns. *)
Lemma generate_embeddings_run (chunks : list CodeChunk.t) :
  let calls := PyList.batches 32 (map text_of (misses cache chunks)) in
  let fresh :=
    combine (map (fun c => (CodeChunk.id c, hash_of c)) (misses cache chunks))
            (concat (map encode calls)) in
  Embeddings.generate_embeddings Embedding md5_hexdigest encode true cache chunks
  = Return (Embeddings.Run Embedding
              (cached_pairs cache chunks
               ++ map (fun it => (fst (fst it), snd it)) fresh)
              (fold_left (fun m it => <[snd (fst it) := snd it]> m) fresh cache)
              calls).
Proof.
  intros calls fresh. unfold Embeddings.generate_embeddings. simpl negb. cbv iota.
  destruct chunks as [|c chunks]; [reflexivity|].
  unfold Embeddings.scan_chunks. rewrite scan_fold.
  cbn [Embeddings.texts_to_embed Embeddings.chunk_ids
       Embeddings.cached_embeddings app].
  fold calls. fold fresh.
  rewrite store_fold. reflexivity.
Qed.

Lemma fresh_length (chunks : list CodeChunk.t) :
  length (concat (map encode (PyList.batches 32 (map text_of (misses cache chunks)))))
  = length (map (fun c => (CodeChunk.id c, hash_of c)) (misses cache chunks)).
Proof.
  rewrite concat_map_length by exact encode_length.
  rewrite batches_concat by lia. now rewrite !length_map.
Qed.

End EmbeddingService.

(** C6 (as amended).  With the model initialised and a model that returns
    one embedding per text, [generate_embeddings] returns one pair per
    input chunk: first the pairs of the chunks whose text is cached, in
    input order and with the cached embedding, then the pairs of the other
    chunks, in input order, with the embeddings the model returned for
    their texts.  The chunk ids of the result are a rearrangement of the
    input's, and afterwards every input chunk's text is cached. *)
Theorem generate_embeddings_hits_then_misses
    (Embedding : Type) (md5_hexdigest : string -> string)
    (encode : list string -> list Embedding)
    (encode_length : forall batch, length (encode batch) = length batch)
    (cache : gmap string Embedding) (chunks : list CodeChunk.t) :
  exists r,
    Embeddings.generate_embeddings Embedding md5_hexdigest encode true cache chunks
    = Return r
    /\ Embeddings.result Embedding r
       = EmbeddingProps.cached_pairs Embedding md5_hexdigest cache chunks
         ++ combine
              (map CodeChunk.id (EmbeddingProps.misses Embedding md5_hexdigest cache chunks))
              (concat (map encode (Embeddings.model_calls Embedding r)))
    /\ concat (Embeddings.model_calls Embedding r)
       = map Embeddings._create_embedding_text
             (EmbeddingProps.misses Embedding md5_hexdigest cache chunks)
    /\ Props.ids (Embeddings.result Embedding r)
       = map CodeChunk.id (EmbeddingProps.hits Embedding md5_hexdigest cache chunks)
         ++ map CodeChunk.id (EmbeddingProps.misses Embedding md5_hexdigest cache chunks)
    /\ Permutation (Props.ids (Embeddings.result Embedding r)) (map CodeChunk.id chunks)
    /\ length (Embeddings.result Embedding r) = length chunks
    /\ (forall c, In c chunks ->
          is_Some (Embeddings.cache_after Embedding r
                   !! EmbeddingProps.hash_of md5_hexdigest c)).
Proof.
  eexists. split; [apply generate_embeddings_run|].
  cbn [Embeddings.result Embeddings.model_calls Embeddings.cache_after].
  pose proof (fresh_length Embedding md5_hexdigest encode cache encode_length chunks)
    as Hlen.
  set (ms := EmbeddingProps.misses Embedding md5_hexdigest cache chunks) in *.
  set (embs := concat (map encode (PyList.batches 32 (map Embeddings._create_embedding_text ms)))) in *.
  assert (Hids : Props.ids
                   (EmbeddingProps.cached_pairs Embedding md5_hexdigest cache chunks
                    ++ map (fun it : (string * string) * Embedding => (fst (fst it), snd it))
                         (combine (map (fun c => (CodeChunk.id c, EmbeddingProps.hash_of md5_hexdigest c)) ms) embs))
                 = map CodeChunk.id (EmbeddingProps.hits Embedding md5_hexdigest cache chunks)
                   ++ map CodeChunk.id ms).
  { unfold Props.ids. rewrite map_app, map_map.
    fold (Props.ids (EmbeddingProps.cached_pairs Embedding md5_hexdigest cache chunks)).
    rewrite cached_pairs_ids. f_equal.
    cbn [fst]. rewrite zip_ids by exact Hlen. now rewrite map_map. }
  split; [|split; [|split; [|split; [|split]]]].
  - f_equal. clear Hids. revert Hlen. generalize embs. clear.
    induction ms as [|c ms IH]; intros [|e embs] H; simpl in *;
      try discriminate; [reflexivity|].
    f_equal. apply IH. lia.
  - apply batches_concat. lia.
  - exact Hids.
  - rewrite Hids, <- map_app. apply Permutation_map, hits_misses_permutation.
  - rewrite <- (length_map fst). fold (Props.ids
      (EmbeddingProps.cached_pairs Embedding md5_hexdigest cache chunks
       ++ map (fun it : (string * string) * Embedding => (fst (fst it), snd it))
            (combine (map (fun c => (CodeChunk.id c, EmbeddingProps.hash_of md5_hexdigest c)) ms) embs))).
    rewrite Hids, <- map_app, length_map.
    apply Permutation_length, hits_misses_permutation.
  - intros c Hc.
    destruct (EmbeddingProps.is_hit Embedding md5_hexdigest cache c) eqn:Hhit.
    + apply inserts_keep. unfold EmbeddingProps.is_hit in Hhit.
      destruct (cache !! EmbeddingProps.hash_of md5_hexdigest c); [eauto|discriminate].
    + apply inserts_add. rewrite zip_hashes by exact Hlen. rewrite map_map. cbn [snd].
      apply in_map_iff. exists c. split; [reflexivity|].
      apply filter_In. split; [exact Hc|now rewrite Hhit].
Qed.

Lemma generate_embeddings_hits_then_misses_witness :
  let a := CodeChunk.Build "a.py:0:0:function" "pass" ChunkType.FUNCTION
             "python" "a.py" 1 1 None None None None 1 [] None in
  exists r,
    Embeddings.generate_embeddings nat (fun s => s) (map String.length) true ∅ [a]
    = Return r
    /\ length (Embeddings.result nat r) = 1%nat.
Proof.
  intros a.
  destruct (generate_embeddings_hits_then_misses nat (fun s => s) (map String.length)
              (fun batch => length_map String.length batch) ∅ [a])
    as (r & Hr & _ & _ & _ & _ & Hlen & _).
  exists r. split; [exact Hr|exact Hlen].
Defined.

(** C6 (counterexample).  With the second of two chunks cached and the
    first not, the cached one comes first in the result: the input order
    [a.py, b.py] is not kept. *)
Lemma generate_embeddings_reorders :
  let a := CodeChunk.Build "a.py:0:0:function" "pass" ChunkType.FUNCTION
             "python" "a.py" 1 1 None None None None 1 [] None in
  let b := CodeChunk.Build "b.py:0:0:function" "return" ChunkType.FUNCTION
             "python" "b.py" 1 1 None None None None 1 [] None in
  let cache : gmap string nat := {[ Embeddings._create_embedding_text b := 7%nat ]} in
  exists r,
    Embeddings.generate_embeddings nat (fun s => s) (map String.length) true cache [a; b]
    = Return r
    /\ Props.ids (Embeddings.result nat r) = ["b.py:0:0:function"; "a.py:0:0:function"]
    /\ Props.ids (Embeddings.result nat r) <> map CodeChunk.id [a; b].
Proof.
  intros a b cache. eexists. split; [reflexivity|].
  split; [vm_compute; reflexivity|]. vm_compute. discriminate.
Qed.

(** The embedding text is built from the language, the names, the kind,
    the content, the docstring and the context only. *)
Lemma same_fields_same_text (c1 c2 : CodeChunk.t) :
  EmbeddingProps.same_text_fields c1 c2 ->
  Embeddings._create_embedding_text c1 = Embeddings._create_embedding_text c2.
Proof.
  intros (Hl & Hk & Hf & Hc & Hm & Hb & Hd & Hx).
  unfold Embeddings._create_embedding_text.
  now rewrite Hl, Hk, Hf, Hc, Hm, Hb, Hd, Hx.
Qed.

Lemma one_embedding {Embedding : Type} (encode : list string -> list Embedding)
    (t : string) :
  (forall batch, length (encode batch) = length batch) ->
  exists e, encode [t] = [e].
Proof.
  intros H. specialize (H [t]).
  destruct (encode [t]) as [|e [|e' l]]; try discriminate. now exists e.
Qed.

Lemma two_embeddings {Embedding : Type} (encode : list string -> list Embedding)
    (t u : string) :
  (forall batch, length (encode batch) = length batch) ->
  exists e1 e2, encode [t; u] = [e1; e2].
Proof.
  intros H. specialize (H [t; u]).
  destruct (encode [t; u]) as [|e1 [|e2 [|e3 l]]]; try discriminate.
  now exists e1, e2.
Qed.

Section SmallRuns.
Variable Embedding : Type.
Variable md5_hexdigest : string -> string.
Variable encode : list string -> list Embedding.
Variable cache : gmap string Embedding.

Abbreviation generate :=
  (Embeddings.generate_embeddings Embedding md5_hexdigest encode true).
Abbreviation key_of c :=
  (Embeddings._get_text_hash md5_hexdigest (Embeddings._create_embedding_text c)).

Lemma run_one_hit (c : CodeChunk.t) (e : Embedding) :
  cache !! key_of c = Some e ->
  generate cache [c]
  = Return (Embeddings.Run Embedding [(CodeChunk.id c, e)] cache []).
Proof.
  intros H. unfold Embeddings.generate_embeddings, Embeddings.scan_chunks.
  cbn [negb fold_left]. unfold Embeddings.scan_step. rewrite H. reflexivity.
Qed.

Lemma run_one_miss (c : CodeChunk.t) (e : Embedding) :
  cache !! key_of c = None ->
  encode [Embeddings._create_embedding_text c] = [e] ->
  generate cache [c]
  = Return (Embeddings.Run Embedding [(CodeChunk.id c, e)]
              (<[key_of c := e]> cache)
              [[Embeddings._create_embedding_text c]]).
Proof.
  intros H He. unfold Embeddings.generate_embeddings, Embeddings.scan_chunks.
  cbn [negb fold_left]. unfold Embeddings.scan_step. rewrite H.
  cbn [Embeddings.texts_to_embed Embeddings.chunk_ids
       Embeddings.cached_embeddings app].
  change (PyList.batches 32 [Embeddings._create_embedding_text c])
    with [[Embeddings._create_embedding_text c]].
  cbn [map concat]. rewrite He. reflexivity.
Qed.

Lemma run_two_hits (c1 c2 : CodeChunk.t) (e1 e2 : Embedding) :
  cache !! key_of c1 = Some e1 ->
  cache !! key_of c2 = Some e2 ->
  generate cache [c1; c2]
  = Return (Embeddings.Run Embedding
              [(CodeChunk.id c1, e1); (CodeChunk.id c2, e2)] cache []).
Proof.
  intros H1 H2. unfold Embeddings.generate_embeddings, Embeddings.scan_chunks.
  cbn [negb fold_left]. unfold Embeddings.scan_step. rewrite H1, H2. reflexivity.
Qed.

Lemma run_two_misses (c1 c2 : CodeChunk.t) (e1 e2 : Embedding) :
  cache !! key_of c1 = None ->
  cache !! key_of c2 = None ->
  encode [Embeddings._create_embedding_text c1; Embeddings._create_embedding_text c2]
  = [e1; e2] ->
  generate cache [c1; c2]
  = Return (Embeddings.Run Embedding
              [(CodeChunk.id c1, e1); (CodeChunk.id c2, e2)]
              (<[key_of c2 := e2]> (<[key_of c1 := e1]> cache))
              [[Embeddings._create_embedding_text c1;
                Embeddings._create_embedding_text c2]]).
Proof.
  intros H1 H2 He. unfold Embeddings.generate_embeddings, Embeddings.scan_chunks.
  cbn [negb fold_left]. unfold Embeddings.scan_step. rewrite H1.
  cbn [Embeddings.texts_to_embed Embeddings.chunk_ids
       Embeddings.cached_embeddings app]. rewrite H2.
  cbn [Embeddings.texts_to_embed Embeddings.chunk_ids
       Embeddings.cached_embeddings app].
  change (PyList.batches 32 [Embeddings._create_embedding_text c1;
                             Embeddings._create_embedding_text c2])
    with [[Embeddings._create_embedding_text c1;
           Embeddings._create_embedding_text c2]].
  cbn [map concat]. rewrite He. reflexivity.
Qed.

End SmallRuns.

(** C7 (as amended).  Two chunks that agree on language, kind, names,
    content, docstring and context get the same embedding text and the same
    cache key, whatever their file paths and ids.  Embedded one call after
    the other, the second is served from the cache entry the first left,
    without a model call.  Embedded in one call, they come back under their
    two ids and leave one cache entry; if the key was cached the model is
    not called, and if it was not the one batch sent to the model holds the
    text twice. *)
Theorem same_text_shares_cache_entry
    (Embedding : Type) (md5_hexdigest : string -> string)
    (encode : list string -> list Embedding)
    (encode_length : forall batch, length (encode batch) = length batch)
    (cache : gmap string Embedding) (c1 c2 : CodeChunk.t)
    (Hsame : EmbeddingProps.same_text_fields c1 c2) :
  let t := Embeddings._create_embedding_text c1 in
  let h := Embeddings._get_text_hash md5_hexdigest t in
  let generate := Embeddings.generate_embeddings Embedding md5_hexdigest encode true in
  Embeddings._create_embedding_text c2 = t
  /\ Embeddings._get_text_hash md5_hexdigest (Embeddings._create_embedding_text c2) = h
  /\ (exists r1 r2 e,
        generate cache [c1] = Return r1
        /\ generate (Embeddings.cache_after Embedding r1) [c2] = Return r2
        /\ Embeddings.result Embedding r1 = [(CodeChunk.id c1, e)]
        /\ Embeddings.result Embedding r2 = [(CodeChunk.id c2, e)]
        /\ Embeddings.cache_after Embedding r1 !! h = Some e
        /\ Embeddings.model_calls Embedding r2 = []
        /\ Embeddings.cache_after Embedding r2 = Embeddings.cache_after Embedding r1)
  /\ (exists r,
        generate cache [c1; c2] = Return r
        /\ Props.ids (Embeddings.result Embedding r) = [CodeChunk.id c1; CodeChunk.id c2]
        /\ dom (Embeddings.cache_after Embedding r) = {[ h ]} ∪ dom cache
        /\ Embeddings.model_calls Embedding r
           = match cache !! h with Some _ => [] | None => [[t; t]] end).
Proof.
  intros t h generate.
  pose proof (same_fields_same_text c1 c2 Hsame) as Htext.
  assert (Hkey : Embeddings._get_text_hash md5_hexdigest
                   (Embeddings._create_embedding_text c2) = h).
  { now rewrite <- Htext. }
  split; [now symmetry|]. split; [exact Hkey|]. split.
  - (* one call after the other *)
    destruct (cache !! h) as [e|] eqn:Hc.
    + exists (Embeddings.Run Embedding [(CodeChunk.id c1, e)] cache []),
             (Embeddings.Run Embedding [(CodeChunk.id c2, e)] cache []), e.
      cbn [Embeddings.cache_after Embeddings.result Embeddings.model_calls].
      split; [now apply run_one_hit|].
      split; [apply run_one_hit; now rewrite Hkey|].
      repeat split; first [reflexivity | exact Hc].
    + destruct (one_embedding encode t encode_length) as [e He].
      exists (Embeddings.Run Embedding [(CodeChunk.id c1, e)] (<[h := e]> cache) [[t]]),
             (Embeddings.Run Embedding [(CodeChunk.id c2, e)] (<[h := e]> cache) []), e.
      cbn [Embeddings.cache_after Embeddings.result Embeddings.model_calls].
      split; [now apply run_one_miss|].
      split; [apply run_one_hit; rewrite Hkey; apply lookup_insert_eq|].
      repeat split; first [reflexivity | apply lookup_insert_eq].
  - (* in one call *)
    destruct (cache !! h) as [e|] eqn:Hc.
    + exists (Embeddings.Run Embedding
                [(CodeChunk.id c1, e); (CodeChunk.id c2, e)] cache []).
      cbn [Embeddings.cache_after Embeddings.result Embeddings.model_calls].
      split; [apply run_two_hits; [exact Hc|now rewrite Hkey]|].
      split; [reflexivity|]. split; [|reflexivity].
      apply elem_of_dom_2 in Hc. set_solver.
    + destruct (two_embeddings encode t t encode_length) as (e1 & e2 & He).
      exists (Embeddings.Run Embedding
                [(CodeChunk.id c1, e1); (CodeChunk.id c2, e2)]
                (<[h := e2]> (<[h := e1]> cache)) [[t; t]]).
      cbn [Embeddings.cache_after Embeddings.result Embeddings.model_calls].
      split.
      * rewrite <- Hkey at 1.
        replace [[t; t]] with [[t; Embeddings._create_embedding_text c2]]
          by now rewrite <- Htext.
        apply run_two_misses; [exact Hc|now rewrite Hkey|now rewrite <- Htext].
      * split; [reflexivity|]. split; [|reflexivity].
        rewrite !dom_insert_L. set_solver.
Qed.

Lemma same_text_shares_cache_entry_witness :
  let a := CodeChunk.Build "a.py:0:0:function" "pass" ChunkType.FUNCTION
             "python" "a.py" 1 1 None None None None 1 [] None in
  let b := CodeChunk.Build "b.py:4:4:function" "pass" ChunkType.FUNCTION
             "python" "b.py" 5 5 None None None None 1 [] None in
  CodeChunk.id a <> CodeChunk.id b
  /\ Embeddings._create_embedding_text b = Embeddings._create_embedding_text a.
Proof.
  intros a b. split; [discriminate|].
  apply (same_text_shares_cache_entry nat (fun s => s) (map String.length)
           (fun batch => length_map String.length batch) ∅ a b).
  repeat split; reflexivity.
Defined.

(** C7 (counterexample).  With an empty cache, embedding the two copies in
    one call sends the shared text to the model twice, in one batch; and
    with thirty-one other chunks between the copies, the text goes to the
    model in two calls, the first and the second batch. *)
Lemma same_text_embedded_twice :
  let chunk (path content : string) :=
    CodeChunk.Build (path ++ ":0:0:function") content ChunkType.FUNCTION
      "python" path 1 1 None None None None 1 [] None in
  let a := chunk "a.py" "pass" in
  let b := chunk "b.py" "pass" in
  let t := Embeddings._create_embedding_text a in
  let others := map (fun k => chunk "c.py" (PyStr.of_nat k)) (seq 1 31) in
  (exists r,
     Embeddings.generate_embeddings nat (fun s => s) (map String.length) true ∅ [a; b]
     = Return r
     /\ Embeddings.model_calls nat r = [[t; t]])
  /\ (exists r first second,
        Embeddings.generate_embeddings nat (fun s => s) (map String.length) true ∅
          (a :: others ++ [b]) = Return r
        /\ Embeddings.model_calls nat r = [first; second]
        /\ In t first /\ In t second).
Proof.
  intros chunk a b t others. split.
  - eexists. split; [vm_compute; reflexivity|]. vm_compute. reflexivity.
  - eexists. eexists. eexists. split; [vm_compute; reflexivity|].
    split; [vm_compute; reflexivity|].
    split; [left; vm_compute; reflexivity|left; vm_compute; reflexivity].
Qed.

(** ** Provider selection (llm_service.py, [select_best_provider]) *)

Section Latency.

Lemma latency_ltb_faster (a b : LLM.latency) :
  LLM.latency_ltb a b = true <-> SelectionProps.faster a b.
Proof.
  destruct a as [x|], b as [y|]; simpl;
    try (split; [reflexivity || discriminate | reflexivity || contradiction]).
  rewrite negb_true_iff. split.
  - intros H. apply Qnot_le_lt. intros Hle.
    apply Qle_bool_iff in Hle. congruence.
  - intros H. destruct (Qle_bool y x) eqn:E; [|reflexivity].
    apply Qle_bool_iff in E. now apply Qlt_not_le in H.
Qed.

Lemma latency_ltb_no_slower (a b : LLM.latency) :
  LLM.latency_ltb a b = false <-> SelectionProps.no_slower b a.
Proof.
  destruct a as [x|], b as [y|]; simpl;
    try (split; [reflexivity || discriminate | reflexivity || contradiction]).
  rewrite negb_false_iff. apply Qle_bool_iff.
Qed.

Lemma latency_key_measured (l : list ProviderStatus.t) (p : ProviderStatus.t) :
  SelectionProps.nonzero_latencies l -> In p l ->
  LLM.latency_key p = SelectionProps.measured p.
Proof.
  intros Hnz Hin. unfold LLM.latency_key, SelectionProps.measured.
  destruct (ProviderStatus.response_time p) as [t|] eqn:E; [|reflexivity].
  destruct (Qeq_bool t 0) eqn:Ez; [|reflexivity].
  apply Qeq_bool_iff in Ez. now destruct (Hnz p t Hin E).
Qed.

Abbreviation min_step :=
  (fun best q : ProviderStatus.t =>
     if LLM.latency_ltb (LLM.latency_key q) (LLM.latency_key best) then q else best).

(** The running minimum stays when nothing later is faster. *)
Lemma min_fold_keeps (rest : list ProviderStatus.t) :
  forall acc,
    (forall p, In p rest ->
       SelectionProps.no_slower (LLM.latency_key acc) (LLM.latency_key p)) ->
    fold_left min_step rest acc = acc.
Proof.
  induction rest as [|q rest IH]; intros acc H; simpl; [reflexivity|].
  assert (Hq : LLM.latency_ltb (LLM.latency_key q) (LLM.latency_key acc) = false).
  { apply latency_ltb_no_slower, H. now left. }
  rewrite Hq. apply IH. intros p Hp. apply H. now right.
Qed.

(** The running minimum moves to the first element that is faster than
    all before it and no slower than all after it. *)
Lemma min_fold_finds (before : list ProviderStatus.t) :
  forall acc best after,
    SelectionProps.faster (LLM.latency_key best) (LLM.latency_key acc) ->
    (forall p, In p before ->
       SelectionProps.faster (LLM.latency_key best) (LLM.latency_key p)) ->
    (forall p, In p after ->
       SelectionProps.no_slower (LLM.latency_key best) (LLM.latency_key p)) ->
    fold_left min_step (before ++ best :: after) acc = best.
Proof.
  induction before as [|q before IH]; intros acc best after Hacc Hb Ha; simpl.
  - apply latency_ltb_faster in Hacc. rewrite Hacc. now apply min_fold_keeps.
  - apply IH; [|intros p Hp; apply Hb; now right|exact Ha].
    destruct (LLM.latency_ltb (LLM.latency_key q) (LLM.latency_key acc));
      [apply Hb; now left|exact Hacc].
Qed.

(** The running minimum is one of the elements. *)
Lemma min_fold_in (rest : list ProviderStatus.t) :
  forall acc, fold_left min_step rest acc = acc \/ In (fold_left min_step rest acc) rest.
Proof.
  induction rest as [|q rest IH]; intros acc; simpl; [now left|].
  destruct (LLM.latency_ltb (LLM.latency_key q) (LLM.latency_key acc)).
  - destruct (IH q) as [->|H]; [right; now left|right; now right].
  - destruct (IH acc) as [->|H]; [now left|right; now right].
Qed.

Lemma min_by_latency_in (l : list ProviderStatus.t) (best : ProviderStatus.t) :
  LLM.min_by_latency l = Some best -> In best l.
Proof.
  destruct l as [|p rest]; simpl; [discriminate|].
  intros H. injection H as <-.
  destruct (min_fold_in rest p) as [->|H]; [now left|now right].
Qed.

Lemma min_by_latency_first_least (before after : list ProviderStatus.t)
    (best : ProviderStatus.t) :
  SelectionProps.nonzero_latencies (before ++ best :: after) ->
  (forall p, In p before ->
     SelectionProps.faster (SelectionProps.measured best) (SelectionProps.measured p)) ->
  (forall p, In p after ->
     SelectionProps.no_slower (SelectionProps.measured best) (SelectionProps.measured p)) ->
  LLM.min_by_latency (before ++ best :: after) = Some best.
Proof.
  intros Hnz Hb Ha.
  assert (Hkey : forall p, In p (before ++ best :: after) ->
                   LLM.latency_key p = SelectionProps.measured p).
  { intros p Hp. now apply (latency_key_measured _ _ Hnz). }
  assert (Hbest : LLM.latency_key best = SelectionProps.measured best).
  { apply Hkey, in_or_app. right. now left. }
  assert (Hb' : forall p, In p before ->
                  SelectionProps.faster (LLM.latency_key best) (LLM.latency_key p)).
  { intros p Hp. rewrite Hbest, (Hkey p); [now apply Hb|].
    apply in_or_app. now left. }
  assert (Ha' : forall p, In p after ->
                  SelectionProps.no_slower (LLM.latency_key best) (LLM.latency_key p)).
  { intros p Hp. rewrite Hbest, (Hkey p); [now apply Ha|].
    apply in_or_app. right. now right. }
  destruct before as [|q before]; simpl; f_equal.
  - now apply min_fold_keeps.
  - apply min_fold_finds; [apply Hb'; now left|intros p Hp; apply Hb'; now right|exact Ha'].
Qed.

End Latency.

Lemma recommended_model_first_choice (models : list ModelInfo.t) (m : ModelInfo.t) :
  SelectionProps.first_choice models m -> LLM.recommended_model models = Some m.
Proof.
  unfold LLM.recommended_model.
  intros [(before & after & -> & Hm & Hb)|[Hall Hhead]].
  - assert (E : List.find ModelInfo.recommended (before ++ m :: after) = Some m).
    { induction Hb as [|x before Hx Hb IH]; simpl.
      - now rewrite Hm.
      - rewrite Hx. exact IH. }
    now rewrite E.
  - assert (E : List.find ModelInfo.recommended models = None).
    { clear Hhead. induction Hall as [|x l Hx Hl IH]; simpl; [reflexivity|].
      now rewrite Hx. }
    now rewrite E.
Qed.

Lemma recommended_model_some (models : list ModelInfo.t) :
  models <> [] -> exists m, LLM.recommended_model models = Some m.
Proof.
  unfold LLM.recommended_model. intros H.
  destruct (List.find ModelInfo.recommended models) as [m|]; [now exists m|].
  destruct models as [|m l]; [contradiction|now exists m].
Qed.

Lemma dict_get_in {A : Type} (k : string) (d : list (string * A)) (v : A) :
  LLM.dict_get k d = Some v -> In (k, v) d.
Proof.
  induction d as [|[k' v'] d IH]; simpl; [discriminate|].
  destruct (String.eqb_spec k k') as [->|Hne].
  - intros H. injection H as ->. now left.
  - intros H. right. now apply IH.
Qed.

Lemma try_preferred_unusable (self : LLM.service) (preferred : option string) :
  SelectionProps.preferred_unusable self preferred ->
  LLM.try_preferred self preferred = None.
Proof.
  unfold SelectionProps.preferred_unusable, LLM.try_preferred.
  destruct preferred as [p|]; [|reflexivity].
  intros [->|H]; [reflexivity|].
  destruct (PyStr.truthy (Some p)); [|reflexivity].
  destruct (LLM.dict_get p (LLM.provider_status self)) as [status|]; [|reflexivity].
  unfold LLM.usable. destruct H as [H|H]; rewrite H; [reflexivity|].
  simpl. now rewrite andb_false_r.
Qed.

Lemma usable_has_model (ps : ProviderStatus.t) :
  LLM.usable ps = true <-> SelectionProps.has_model ps.
Proof.
  unfold LLM.usable, SelectionProps.has_model.
  rewrite andb_true_iff, negb_true_iff, Nat.eqb_neq.
  destruct (ProviderStatus.models ps); simpl; split; intros [H1 H2];
    (split; [exact H1|congruence]).
Qed.

Section Selection.
Variable self : LLM.service.
Hypothesis Hwf : SelectionProps.well_formed self.

Lemma listed_name_valid (ps : ProviderStatus.t) :
  In ps (map snd (LLM.provider_status self)) ->
  exists p, ModelProvider.of_value (ProviderStatus.name ps) = Some p.
Proof.
  intros H. apply in_map_iff in H. destruct H as [[k ps'] [E Hin]].
  simpl in E. subst ps'. destruct (Hwf k ps Hin) as [-> Hp]. exact Hp.
Qed.

Lemma select_listed (ps : ProviderStatus.t) (m : ModelInfo.t) :
  In ps (map snd (LLM.provider_status self)) ->
  SelectionProps.selects (LLM.select (ProviderStatus.name ps) m)
    (ProviderStatus.name ps) (ModelInfo.id m).
Proof.
  intros H. destruct (listed_name_valid ps H) as [p Hp].
  exists p. split; [exact Hp|]. unfold LLM.select. now rewrite Hp.
Qed.

Lemma candidates_listed (mode : option string) (ps : ProviderStatus.t) :
  In ps (LLM.get_available_providers self mode) ->
  In ps (map snd (LLM.provider_status self)).
Proof. unfold LLM.get_available_providers. intros H. now apply filter_In in H. Qed.

(** The third stage returns the first listed provider that is available
    and has a model. *)
Lemma fallback_first_usable (before after : list ProviderStatus.t)
    (ps : ProviderStatus.t) (m : ModelInfo.t) :
  Forall (fun q => ~ SelectionProps.has_model q) before ->
  SelectionProps.has_model ps ->
  SelectionProps.first_choice (ProviderStatus.models ps) m ->
  LLM.fallback (before ++ ps :: after) = LLM.select (ProviderStatus.name ps) m.
Proof.
  intros Hb Hps Hm. induction Hb as [|q before Hq Hb IH]; simpl.
  - apply usable_has_model in Hps. rewrite Hps.
    now rewrite (recommended_model_first_choice _ _ Hm).
  - destruct (LLM.usable q) eqn:E; [|exact IH].
    apply usable_has_model in E. contradiction.
Qed.

Lemma fallback_some (statuses : list ProviderStatus.t) :
  (forall ps, In ps statuses -> In ps (map snd (LLM.provider_status self))) ->
  (exists ps, In ps statuses /\ SelectionProps.has_model ps) ->
  exists p model, LLM.fallback statuses = Return (Some p, Some model).
Proof.
  induction statuses as [|q rest IH]; intros Hsub [ps [Hin Hps]]; [contradiction|].
  simpl. destruct (LLM.usable q) eqn:E.
  - apply usable_has_model in E. destruct E as [_ Hmodels].
    destruct (recommended_model_some _ Hmodels) as [m Hm]. rewrite Hm.
    destruct (select_listed q m (Hsub q (or_introl eq_refl))) as (p & _ & ->).
    now exists p, (ModelInfo.id m).
  - destruct Hin as [->|Hin].
    + apply usable_has_model in Hps. congruence.
    + apply IH; [intros x Hx; apply Hsub; now right|now exists ps].
Qed.

End Selection.

Lemma fallback_none (statuses : list ProviderStatus.t) :
  Forall (fun ps => ~ SelectionProps.has_model ps) statuses ->
  LLM.fallback statuses = Return (None, None).
Proof.
  intros H. induction H as [|q rest Hq Hrest IH]; simpl; [reflexivity|].
  destruct (LLM.usable q) eqn:E; [|exact IH].
  apply usable_has_model in E. contradiction.
Qed.

(** C5 (as amended).  On a status table filled by the health sweep (every
    status filed under its provider's own name), when the preferred
    provider cannot be used [select_best_provider] falls through.
    (1) Take the available providers of the configured mode, none of them
    with a latency recorded as 0.0, and the one with the least latency
    among them, the first such in table order, a provider without
    measurement counting as slowest.  If it has a model, it is returned
    with its first recommended model, or its first model when none is
    recommended.  If it has no model, the first provider of the table that
    is available and has a model is returned with its model, whatever its
    type.  (2) If no available provider matches the mode, the first
    provider of the table that is available and has a model is returned in
    the same way.  (3) Whenever some provider of the table is available
    and has a model, a provider and a model are returned, with or without
    a preferred provider; (4) when none is, the result is (None, None). *)
Theorem select_best_provider_falls_through
    (self : LLM.service) (preferred : option string)
    (Hwf : SelectionProps.well_formed self) :
  let r := LLM.select_best_provider self preferred in
  let candidates := LLM.get_available_providers self (LLM.mode_filter self) in
  let table := map snd (LLM.provider_status self) in
  (SelectionProps.preferred_unusable self preferred ->
   SelectionProps.nonzero_latencies candidates ->
   forall before best after,
     candidates = before ++ best :: after ->
     (forall p, In p before ->
        SelectionProps.faster (SelectionProps.measured best)
                              (SelectionProps.measured p)) ->
     (forall p, In p after ->
        SelectionProps.no_slower (SelectionProps.measured best)
                                 (SelectionProps.measured p)) ->
     (forall m,
         SelectionProps.first_choice (ProviderStatus.models best) m ->
         SelectionProps.selects r (ProviderStatus.name best) (ModelInfo.id m))
     /\ (ProviderStatus.models best = [] ->
         forall skipped ps rest m,
           table = skipped ++ ps :: rest ->
           Forall (fun q => ~ SelectionProps.has_model q) skipped ->
           SelectionProps.has_model ps ->
           SelectionProps.first_choice (ProviderStatus.models ps) m ->
           SelectionProps.selects r (ProviderStatus.name ps) (ModelInfo.id m)))
  /\ (SelectionProps.preferred_unusable self preferred ->
      candidates = [] ->
      forall skipped ps rest m,
        table = skipped ++ ps :: rest ->
        Forall (fun q => ~ SelectionProps.has_model q) skipped ->
        SelectionProps.has_model ps ->
        SelectionProps.first_choice (ProviderStatus.models ps) m ->
        SelectionProps.selects r (ProviderStatus.name ps) (ModelInfo.id m))
  /\ ((exists ps, In ps table /\ SelectionProps.has_model ps) ->
      exists p model, r = Return (Some p, Some model))
  /\ (Forall (fun ps => ~ SelectionProps.has_model ps) table ->
      r = Return (None, None)).
Proof.
  intros r candidates table. split; [|split; [|split]].
  - (* the fastest provider of the mode *)
    intros Hpref Hnz before best after Hc Hb Ha.
    assert (Hmin : LLM.min_by_latency candidates = Some best).
    { rewrite Hc. apply min_by_latency_first_least;
        [now rewrite <- Hc|exact Hb|exact Ha]. }
    split.
    + intros m Hm.
      unfold r, LLM.select_best_provider, LLM.try_mode.
      rewrite (try_preferred_unusable _ _ Hpref).
      fold candidates. rewrite Hmin.
      rewrite (recommended_model_first_choice _ _ Hm).
      apply (select_listed self Hwf).
      apply (candidates_listed self (LLM.mode_filter self)).
      fold candidates. rewrite Hc. apply in_or_app. right. now left.
    + intros Hnone skipped ps rest m Hl Hs Hps Hm.
      unfold r, LLM.select_best_provider, LLM.try_mode.
      rewrite (try_preferred_unusable _ _ Hpref).
      fold candidates. rewrite Hmin, Hnone. cbn [LLM.recommended_model List.find head].
      fold table. rewrite Hl, (fallback_first_usable skipped rest ps m Hs Hps Hm).
      apply (select_listed self Hwf). fold table. rewrite Hl.
      apply in_or_app. right. now left.
  - (* no provider of the mode: any provider *)
    intros Hpref Hnone skipped ps rest m Hl Hs Hps Hm.
    unfold r, LLM.select_best_provider, LLM.try_mode.
    rewrite (try_preferred_unusable _ _ Hpref).
    fold candidates. rewrite Hnone. cbn [LLM.min_by_latency].
    fold table. rewrite Hl, (fallback_first_usable skipped rest ps m Hs Hps Hm).
    apply (select_listed self Hwf). fold table. rewrite Hl.
    apply in_or_app. right. now left.
  - (* some provider is returned *)
    intros Hex. unfold r, LLM.select_best_provider.
    destruct (LLM.try_preferred self preferred) as [r1|] eqn:E1.
    + unfold LLM.try_preferred in E1.
      destruct preferred as [p|]; [|discriminate].
      destruct (PyStr.truthy (Some p)); [|discriminate].
      destruct (LLM.dict_get p (LLM.provider_status self)) as [status|] eqn:Eg;
        [|discriminate].
      destruct (LLM.usable status); [|discriminate].
      destruct (LLM.recommended_model (ProviderStatus.models status)) as [m|];
        [|discriminate].
      injection E1 as <-.
      apply dict_get_in in Eg. destruct (Hwf p status Eg) as [_ [q Hq]].
      exists q, (ModelInfo.id m). unfold LLM.select. now rewrite Hq.
    + destruct (LLM.try_mode self) as [r2|] eqn:E2.
      * unfold LLM.try_mode in E2. fold candidates in E2.
        destruct (LLM.min_by_latency candidates) as [best|] eqn:Eb; [|discriminate].
        destruct (LLM.recommended_model (ProviderStatus.models best)) as [m|];
          [|discriminate].
        injection E2 as <-.
        assert (Hin : In best candidates) by (now apply min_by_latency_in).
        apply (candidates_listed self (LLM.mode_filter self)) in Hin.
        destruct (select_listed self Hwf best m Hin) as (q & _ & ->).
        now exists q, (ModelInfo.id m).
      * apply (fallback_some self Hwf); [auto|exact Hex].
  - (* no provider can be used *)
    intros Hnone.
    assert (Hno : forall ps, In ps table -> LLM.usable ps = false).
    { intros ps Hin. destruct (LLM.usable ps) eqn:E; [|reflexivity].
      apply usable_has_model in E.
      now destruct (proj1 (List.Forall_forall _ _) Hnone ps Hin). }
    unfold r, LLM.select_best_provider.
    assert (E1 : LLM.try_preferred self preferred = None).
    { unfold LLM.try_preferred.
      destruct preferred as [p|]; [|reflexivity].
      destruct (PyStr.truthy (Some p)); [|reflexivity].
      destruct (LLM.dict_get p (LLM.provider_status self)) as [status|] eqn:Eg;
        [|reflexivity].
      apply dict_get_in in Eg.
      rewrite (Hno status); [reflexivity|].
      unfold table. change status with (snd (p, status)). now apply in_map. }
    assert (E2 : LLM.try_mode self = None).
    { unfold LLM.try_mode. fold candidates.
      destruct (LLM.min_by_latency candidates) as [best|] eqn:Eb; [|reflexivity].
      assert (Hin : In best candidates) by (now apply min_by_latency_in).
      pose proof Hin as Hav. unfold candidates, LLM.get_available_providers in Hav.
      apply filter_In in Hav. destruct Hav as [Hlist Hav].
      apply andb_true_iff in Hav. destruct Hav as [Hav _].
      pose proof (Hno best Hlist) as Hu. unfold LLM.usable in Hu.
      rewrite Hav in Hu. simpl in Hu.
      destruct (ProviderStatus.models best); [reflexivity|discriminate Hu]. }
    rewrite E1, E2. fold table. now apply fallback_none.
Qed.

Lemma select_best_provider_falls_through_witness :
  let model id rec := ModelInfo.Build id id "p" "online" 8192 rec "" None in
  let self :=
    LLM.Service
      [ ("ollama", ProviderStatus.Build "ollama" false [] (Some "connection refused") None);
        ("openai", ProviderStatus.Build "openai" true
                     [model "gpt-3.5-turbo" false; model "gpt-4o" true] None (Some (3 # 10)));
        ("groq", ProviderStatus.Build "groq" true
                   [model "mixtral-8x7b-32768" false] None (Some (1 # 10))) ]
      "online" in
  LLM.select_best_provider self (Some "ollama")
  = Return (Some ModelProvider.GROQ, Some "mixtral-8x7b-32768").
Proof.
  intros model self.
  assert (Hwf : SelectionProps.well_formed self).
  { intros k ps Hin. simpl in Hin.
    destruct Hin as [H|[H|[H|[]]]]; injection H as <- <-;
      (split; [reflexivity|eexists; reflexivity]). }
  destruct (select_best_provider_falls_through self (Some "ollama") Hwf) as [H _].
  assert (Hpref : SelectionProps.preferred_unusable self (Some "ollama")).
  { right. simpl. now left. }
  assert (Hnz : SelectionProps.nonzero_latencies
                  (LLM.get_available_providers self (LLM.mode_filter self))).
  { intros p t Hin Ht. simpl in Hin.
    destruct Hin as [<-|[<-|[]]]; simpl in Ht; injection Ht as <-; discriminate. }
  destruct (H Hpref Hnz
              [ProviderStatus.Build "openai" true
                 [model "gpt-3.5-turbo" false; model "gpt-4o" true] None (Some (3 # 10))]
              (ProviderStatus.Build "groq" true
                 [model "mixtral-8x7b-32768" false] None (Some (1 # 10)))
              [])
    as [Hbest _].
  - reflexivity.
  - intros p [<-|[]]. simpl. reflexivity.
  - intros p [].
  - destruct (Hbest (model "mixtral-8x7b-32768" false)) as (p & Hp & Hr).
    + right. split; [repeat constructor|reflexivity].
    + simpl in Hp. injection Hp as <-. exact Hr.
Defined.

(** C5 (counterexample).  In local mode with the preferred local provider
    down and one online provider up, the online provider is returned
    although no available provider matches the mode; and when the fastest
    provider of the mode has no model, a slower one is returned. *)
Lemma select_best_provider_leaves_mode :
  let model id rec := ModelInfo.Build id id "p" "online" 8192 rec "" None in
  let down := ProviderStatus.Build "ollama" false [] (Some "connection refused") None in
  let openai := ProviderStatus.Build "openai" true [model "gpt-4o" true] None (Some (2 # 10)) in
  let empty := ProviderStatus.Build "groq" true [] None (Some (1 # 10)) in
  let local := LLM.Service [("ollama", down); ("openai", openai)] "local" in
  let hybrid := LLM.Service [("groq", empty); ("openai", openai)] "hybrid" in
  (LLM.get_available_providers local (LLM.mode_filter local) = []
   /\ LLM.select_best_provider local (Some "ollama")
      = Return (Some ModelProvider.OPENAI, Some "gpt-4o"))
  /\ (LLM.get_available_providers hybrid (LLM.mode_filter hybrid) = [empty; openai]
      /\ LLM.min_by_latency [empty; openai] = Some empty
      /\ LLM.select_best_provider hybrid (Some "ollama")
         = Return (Some ModelProvider.OPENAI, Some "gpt-4o")).
Proof. repeat split; vm_compute; reflexivity. Qed.

(** ** Streaming sessions (websocket_manager.py) *)

(** *** Nested sends *)

Section NestedSends.
Import WebSocket.






Lemma streaming_count_bound (m : Manager) :
  (SessionProps.streaming_count m < S (length (tasks m)))%nat.
Proof.
  unfold SessionProps.streaming_count.
  pose proof (List.filter_length_le SessionProps.is_streaming (tasks m)). lia.
Qed.

End NestedSends.

(** *** One task and its client *)

Section StreamResponse.
Import WebSocket.
Variable client task : string.
Variable metadata : option Metadata.











End StreamResponse.

(** C3 (the failing run).  Client A is connected and stays so.  A task is
    started for A under the id [t1], and before the event loop has run it
    a second task is started for A under [t2]: [start_streaming_response]
    cancels the first task, which ends without having entered
    [_stream_response], so that neither its [except] block nor its
    [finally] runs.  The second task streams a chunk and completes.  A has
    then received the chunk and the terminal message of [t2] and no
    terminal message for [t1].  The same holds when the first task is
    stopped by [_handle_stop_generation] before its first run: A is told
    that the generation stopped, and gets no terminal message for [t1]. *)
Theorem task_cancelled_before_first_run_sends_nothing :
  let m0 := fst (WebSocket.connect WebSocket.empty "A" 0%Q) in
  let m1 := WebSocket.start_streaming_response m0 "A" "t1" None in
  let m2 := WebSocket.start_streaming_response m1 "A" "t2" None in
  let m3 := SessionProps.run (WebSocket.first_run m2 1) 1
              [WebSocket.Yield "x"; WebSocket.Exhausted] in
  let stopped := WebSocket._handle_stop_generation m1 "A" in
  let welcome :=
    ("A", WebSocket.STATUS_UPDATE "connected" "WebSocket connection established") in
  (SessionProps.reachable m1 "A" /\ SessionProps.reachable m3 "A"
   /\ SessionProps.reachable stopped "A")
  /\ SessionProps.task_is m1 0 "A" "t1" None WebSocket.Pending
  /\ SessionProps.registered m1 "t1" 0
  /\ SessionProps.task_is m2 0 "A" "t1" None WebSocket.Done
  /\ SessionProps.task_is m3 0 "A" "t1" None WebSocket.Done
  /\ SessionProps.task_is m3 1 "A" "t2" None WebSocket.Done
  /\ WebSocket.sent m3
     = [welcome; ("A", WebSocket.STREAM_CHUNK "t2" "x");
        ("A", WebSocket.STREAM_COMPLETE "t2" [])]
  /\ WebSocket.terminal_messages "A" "t1" (WebSocket.sent m3) = []
  /\ SessionProps.task_is stopped 0 "A" "t1" None WebSocket.Done
  /\ WebSocket.sent stopped
     = [welcome;
        ("A", WebSocket.STATUS_UPDATE "stopped" "Generation stopped by user")]
  /\ WebSocket.terminal_messages "A" "t1" (WebSocket.sent stopped) = [].
Proof.
  intros m0 m1 m2 m3 stopped welcome.
  split.
  - repeat split; eexists; (split; [vm_compute; reflexivity|]);
      split; reflexivity.
  - repeat split; vm_compute; reflexivity.
Qed.





(** C4 (the failing run).  Clients A and B each start a task under the
    same task id, as two queries without id in the same second do; each
    connection then has one running task.  A starts another task:
    [start_streaming_response] cancels what the registry holds under A's
    current task id, which is B's task, and A's first task keeps running
    beside the new one.  At its next chunk A's first task finds its id gone
    from the registry, ends, and clears A's [current_task_id] although A's
    new task is still running. *)
Theorem colliding_task_ids_leave_two_tasks :
  let m0 := fst (WebSocket.connect (fst (WebSocket.connect WebSocket.empty "A" 0%Q)) "B" 0%Q) in
  let m1 := WebSocket.first_run (WebSocket.start_streaming_response m0 "A" "task_100" None) 0 in
  let m2 := WebSocket.first_run (WebSocket.start_streaming_response m1 "B" "task_100" None) 1 in
  let m3 := WebSocket.first_run (WebSocket.start_streaming_response m2 "A" "task_101" None) 2 in
  let m4 := WebSocket._stream_response m3 0 (WebSocket.Yield "x") in
  WebSocket.at_most_one_active m2
  /\ WebSocket.active_tasks m2 "B" = [1%nat]
  /\ WebSocket.active_tasks m3 "A" = [0%nat; 2%nat]
  /\ WebSocket.active_tasks m3 "B" = []
  /\ WebSocket.terminal_messages "B" "task_100" (WebSocket.sent m3)
     = [WebSocket.STREAM_ERROR "task_100" "Generation was stopped"]
  /\ ~ WebSocket.at_most_one_active m3
  /\ WebSocket.active_tasks m4 "A" = [2%nat]
  /\ (WebSocket.current_task_id <$> WebSocket.connections m4 !! "A") = Some None.
Proof.
  intros m0 m1 m2 m3 m4.
  split; [|repeat split; try (vm_compute; reflexivity)].
  - intros c. unfold WebSocket.active_tasks.
    change (WebSocket.tasks m2)
      with [WebSocket.MkTask "A" "task_100" None WebSocket.Streaming;
            WebSocket.MkTask "B" "task_100" None WebSocket.Streaming].
    cbn [length seq combine List.filter snd fst WebSocket.task_client
         WebSocket.task_state WebSocket.is_done negb].
    destruct (String.eqb_spec "A" c) as [Ea|Ha];
      destruct (String.eqb_spec "B" c) as [Eb|Hb];
      try (rewrite <- Ea in Eb; discriminate Eb); simpl; lia.
  - intros H. specialize (H "A"). vm_compute in H. lia.
Qed.

(** ** Sub-chunks: ids, inherited fields and scores
       (tree_sitter_parser.py, [_split_chunk]) *)

Section SubChunkFields.
Variable chunk : CodeChunk.t.
Variable max_size : Z.
Variable n_lines : nat.








End SubChunkFields.





(** ** The suffix of a path and the language table
       (tree_sitter_parser.py, [_detect_language]; language_configs.py) *)

Section LastOccurrence.
Variable c : ascii.





End LastOccurrence.





(** ** The complexity score does not see letter case or indentation
       (tree_sitter_parser.py, [_calculate_complexity]) *)

Section StripMap.
Variable f : ascii -> ascii.
Hypothesis f_space : forall c, PyStr.isspace (f c) = PyStr.isspace c.




End StripMap.












(** ** Python slices *)

Section Slices.
Context {A : Type}.

Lemma slice_index_in (n i : nat) :
  (i <= n)%nat -> PyList.slice_index n (Z.of_nat i) = i.
Proof.
  intros H. unfold PyList.slice_index.
  destruct (Z.ltb_spec (Z.of_nat i) 0); lia.
Qed.

Lemma slice_nat (l : list A) (a b : nat) :
  (a <= length l)%nat -> (b <= length l)%nat ->
  PyList.slice l (Z.of_nat a) (Z.of_nat b) = firstn (b - a) (skipn a l).
Proof.
  intros Ha Hb. unfold PyList.slice.
  now rewrite !slice_index_in by assumption.
Qed.


Lemma slice_length (l : list A) (a b : nat) :
  (a <= b)%nat -> (b <= length l)%nat ->
  length (PyList.slice l (Z.of_nat a) (Z.of_nat b)) = (b - a)%nat.
Proof.
  intros Hab Hb. rewrite slice_nat by lia.
  rewrite length_firstn, length_skipn. lia.
Qed.

Lemma slice_Forall (P : A -> Prop) (l : list A) (a b : Z) :
  Forall P l -> Forall P (PyList.slice l a b).
Proof.
  intros H. unfold PyList.slice.
  now apply Forall_take, Forall_drop.
Qed.

End Slices.

(** ** Context lines (tree_sitter_parser.py, [_add_context]) *)




(** ** Chunks made from syntax-tree nodes
       (tree_sitter_parser.py, [_create_function_chunk] and the like) *)

Lemma node_text_lines (node : TreeSitter.Node) (content : string) :
  ChunkProps.in_text node content ->
  PyStr.split PyStr.newline (TreeSitter.node_text node content)
  = PyList.slice (PyStr.split PyStr.newline content)
                 (Z.of_nat (TreeSitter.start_row node))
                 (Z.of_nat (S (TreeSitter.end_row node)))
  /\ length (PyStr.split PyStr.newline (TreeSitter.node_text node content))
     = (TreeSitter.end_row node - TreeSitter.start_row node + 1)%nat.
Proof.
  intros [Hse Hel]. unfold TreeSitter.node_text.
  replace (Z.of_nat (TreeSitter.end_row node) + 1)
    with (Z.of_nat (S (TreeSitter.end_row node))) by lia.
  set (lines := PyStr.split PyStr.newline content) in *.
  assert (Hlen : length (PyList.slice lines (Z.of_nat (TreeSitter.start_row node))
                                      (Z.of_nat (S (TreeSitter.end_row node))))
                 = (TreeSitter.end_row node - TreeSitter.start_row node + 1)%nat).
  { rewrite slice_length by lia. lia. }
  assert (Hs : PyStr.split PyStr.newline
                 (PyStr.join PyStr.nl
                    (PyList.slice lines (Z.of_nat (TreeSitter.start_row node))
                                  (Z.of_nat (S (TreeSitter.end_row node)))))
               = PyList.slice lines (Z.of_nat (TreeSitter.start_row node))
                              (Z.of_nat (S (TreeSitter.end_row node)))).
  { apply split_join.
    - intros E. rewrite E in Hlen. simpl in Hlen. lia.
    - apply slice_Forall. apply split_pieces_free. }
  split; [exact Hs|]. now rewrite Hs.
Qed.

(** The sub-chunks of a chunk whose range is as long as its content cover
    the range. *)
Lemma split_chunk_tiles_range (chunk : CodeChunk.t) (max_size : Z) :
  ChunkProps.range_matches_content chunk ->
  Props.tiles (CodeChunk.line_start chunk) (Parser._split_chunk chunk max_size)
              (CodeChunk.line_end chunk).
Proof.
  intros Hr.
  destruct (split_chunk_built chunk max_size) as (groups & Hne & Hb & Hl & _).
  assert (Hfree : Forall (fun l => PyStr.has_char PyStr.newline l = false)
                         (concat groups)).
  { rewrite Hl. apply split_pieces_free. }
  pose proof (built_lines _ _ _ Hb Hfree) as Hlines.
  pose proof (built_tiles _ _ _ Hb Hlines) as Ht.
  rewrite Hl in Ht. now rewrite Hr.
Qed.



(** ** Walking the syntax tree (tree_sitter_parser.py, [_extract_functions]
       and the like) *)






(** ** The tree-sitter pipeline (tree_sitter_parser.py,
       [_parse_with_tree_sitter]) *)



(** ** The embedding cache across calls (sentence_transformer.py,
       [generate_embeddings] and [generate_query_embedding]) *)

Section EmbeddingCache.
Variable Embedding : Type.
Variable md5_hexdigest : string -> string.
Variable encode : list string -> list Embedding.

Abbreviation hash_of' := (EmbeddingProps.hash_of md5_hexdigest).
Abbreviation misses' := (EmbeddingProps.misses Embedding md5_hexdigest).
Abbreviation is_hit' := (EmbeddingProps.is_hit Embedding md5_hexdigest).






End EmbeddingCache.









(** ** Filters and the [Match] of the client library (qdrant_client.py) *)



(** ** The preferred provider and the prompt (llm_service.py) *)




(** ** Splitting covers the chunk (tree_sitter_parser.py, [_split_chunk]) *)

(** C1.  The chunks that reach [_split_chunk] are made from syntax-tree
    nodes, and the line range of such a chunk is as long as its content.
    For every chunk of which this holds and every size limit,
    [_split_chunk] returns a non-empty list of sub-chunks; joining their
    contents in order with newlines gives back the content of the chunk;
    and their line ranges follow one another without gap or overlap, each
    as long as its content, from the chunk's [line_start] to its
    [line_end]. *)
Theorem split_chunk_covers_chunk
    (chunk : CodeChunk.t) (max_size : Z)
    (Hrange : ChunkProps.range_matches_content chunk) :
  let subs := Parser._split_chunk chunk max_size in
  subs <> []
  /\ PyStr.join PyStr.nl (map CodeChunk.content subs) = CodeChunk.content chunk
  /\ Props.tiles (CodeChunk.line_start chunk) subs (CodeChunk.line_end chunk)
  /\ (forall node content file_path language,
         ChunkProps.in_text node content ->
         Forall ChunkProps.range_matches_content
           [ TreeSitter._create_function_chunk node content file_path language;
             TreeSitter._create_class_chunk node content file_path language;
             TreeSitter._create_import_chunk node content file_path language;
             TreeSitter._create_comment_chunk node content file_path language ]).
Proof.
  intros subs.
  destruct (split_chunk_built chunk max_size) as (groups & Hne & Hb & Hl & _).
  fold subs in Hb.
  destruct (built_contents _ _ _ Hb) as [Hc Hg].
  split; [|split; [|split]].
  - intros E. rewrite E in Hb. destruct groups; [contradiction|exact Hb].
  - rewrite Hc. unfold PyStr.nl.
    rewrite join_groups by exact Hg. rewrite Hl. apply join_split.
  - now apply split_chunk_tiles_range.
  - intros node content file_path language Hin.
    destruct (node_text_lines node content Hin) as [_ Hn].
    destruct Hin as [Hse Hel].
    repeat constructor;
      unfold ChunkProps.range_matches_content, Props.lines_of;
      simpl CodeChunk.content; simpl CodeChunk.line_start;
      simpl CodeChunk.line_end; rewrite Hn; lia.
Qed.

Lemma split_chunk_covers_chunk_witness :
  let content :=
    ("import os" ++ PyStr.nl ++ "def f():" ++ PyStr.nl ++ "    return 1")%string in
  let node := TreeSitter.MkNode "function_definition" 1 2 10 31 [] in
  let chunk := TreeSitter._create_function_chunk node content "a.py" "python" in
  let subs := Parser._split_chunk chunk 10 in
  PyStr.join PyStr.nl (map CodeChunk.content subs) = CodeChunk.content chunk
  /\ Props.tiles (CodeChunk.line_start chunk) subs (CodeChunk.line_end chunk)
  /\ map (fun s => (CodeChunk.line_start s, CodeChunk.line_end s)) subs
     = [(2, 2); (3, 3)].
Proof.
  intros content node chunk subs.
  assert (Hrange : ChunkProps.range_matches_content chunk) by reflexivity.
  destruct (split_chunk_covers_chunk chunk 10 Hrange) as (_ & Hjoin & Htiles & _).
  split; [exact Hjoin|]. split; [exact Htiles|reflexivity].
Defined.
